(** * weoucbookcycle: the chat subsystem

    A shallow embedding of the chat service ([services.ChatService]) and of
    the chat controller ([controllers.ChatController]) of the Go backend,
    together with the two collaborators they talk to: the relational store
    reached through gorm ([config.DB]) and the Redis server reached through
    go-redis ([config.RedisClient], [cc.redisClient]).

    Modelling conventions.
    - A Go [string] is a sequence of bytes: Rocq's [string], one [ascii] per
      byte.  [len(s)] is [String.length s].
    - Time is a number of seconds ([Z]); it only moves through an explicit
      clock step.
    - A goroutine started with [go f(...)] is run to completion at the
      point where it is started.
    - A Redis command issued through a non-nil client succeeds; the client
      of the service may be nil ([redis_client = false]).  The relational
      store may be down ([DB.up = false]), in which case every gorm call
      returns an error.
    - A send on a full buffered channel outside a [select] blocks: the
      operation ends in the outcome [Blocked]. *)

From Stdlib Require Import ZArith Lia Ascii String.
From stdpp Require Import gmap strings list fin_maps pretty.

Local Open Scope Z_scope.

(** ** Go strings *)

Module GoString.

(** [s[n:]] for [n <= len(s)]. *)
Fixpoint drop (n : nat) (s : string) : string :=
  match n, s with
  | O, _ => s
  | S n', String _ s' => drop n' s'
  | S _, EmptyString => EmptyString
  end.

Definition byte (c : ascii) : Z := Z.of_N (N_of_ascii c).

Definition between (lo hi : Z) (c : ascii) : bool :=
  (lo <=? byte c) && (byte c <=? hi).

(** Continuation bytes, [locb] and [hicb] of [unicode/utf8]. *)
Definition cont (c : ascii) : bool := between 128 191 c.

(** The table [first] of [unicode/utf8]: the length of the sequence a
    leading byte announces, and the range accepted for its second byte.
    Size 1 stands for ASCII and for an invalid leading byte alike: both
    make one rune of one byte. *)
Definition first (c : ascii) : nat * (Z * Z) :=
  let b := byte c in
  if b <? 128 then (1%nat, (0, 0))
  else if b <? 194 then (1%nat, (0, 0))
  else if b <? 224 then (2%nat, (128, 191))
  else if b =? 224 then (3%nat, (160, 191))
  else if b =? 237 then (3%nat, (128, 159))
  else if b <? 240 then (3%nat, (128, 191))
  else if b =? 240 then (4%nat, (144, 191))
  else if b <? 244 then (4%nat, (128, 191))
  else if b =? 244 then (4%nat, (128, 143))
  else (1%nat, (0, 0)).

(** [utf8.RuneCountInString]: the number of code points of [s], a byte
    that starts no valid sequence counting for one. *)
Fixpoint RuneCountInString (s : string) : nat :=
  match s with
  | EmptyString => O
  | String c0 s1 =>
    let '(size, (lo, hi)) := first c0 in
    S (match size, s1 with
       | 2%nat, String c1 s2 =>
         if between lo hi c1 then RuneCountInString s2
         else RuneCountInString s1
       | 3%nat, String c1 (String c2 s3) =>
         if between lo hi c1 && cont c2 then RuneCountInString s3
         else RuneCountInString s1
       | 4%nat, String c1 (String c2 (String c3 s4)) =>
         if between lo hi c1 && cont c2 && cont c3 then RuneCountInString s4
         else RuneCountInString s1
       | _, _ => RuneCountInString s1
       end)
  end.

(** [strings.Repeat]. *)
Fixpoint Repeat (s : string) (n : nat) : string :=
  match n with
  | O => EmptyString
  | S n' => s +:+ Repeat s n'
  end.

End GoString.

(** ** The relational store *)

Module Message.
Record t := mk {
  ID : string;
  ChatID : string;
  SenderID : string;
  Content : string;
  IsRead : bool;
  CreatedAt : Z
}.

Definition set_IsRead (b : bool) (m : t) : t :=
  mk (ID m) (ChatID m) (SenderID m) (Content m) b (CreatedAt m).
End Message.

Module ChatUser.
Record t := mk {
  ID : string;
  ChatID : string;
  UserID : string;
  UnreadCount : Z
}.
End ChatUser.

Module Chat.
Record t := mk {
  ID : string;
  LastMessage : string;
  UpdatedAt : Z
}.
End Chat.

Module DB.

Record t := mk {
  up : bool;
  entropy : nat;
  messages : list Message.t;
  chat_users : list ChatUser.t;
  chats : list Chat.t
}.

(** [models.generateUUID] draws a random UUID; the model draws the next
    identifier of a counter.  It is never the empty string. *)
Definition generateUUID (n : nat) : string := "uuid-" +:+ pretty n.

(** [Where("chat_id = ? AND user_id = ?", c, u).First(&chatUser)]. *)
Definition first_chat_user (c u : string) (d : t) : option ChatUser.t :=
  if up d then
    List.find (fun cu => bool_decide (ChatUser.ChatID cu = c)
                         && bool_decide (ChatUser.UserID cu = u))
              (chat_users d)
  else None.

(** [Where("chat_id = ?", c).Find(&chatUsers)]. *)
Definition find_chat_users (c : string) (d : t) : option (list ChatUser.t) :=
  if up d then
    Some (List.filter (fun cu => bool_decide (ChatUser.ChatID cu = c))
                      (chat_users d))
  else None.

(** [Model(&Chat{}).Where("id = ?", c).Updates(last_message, updated_at)]. *)
Definition touch_chat (c content : string) (at_ : Z) (ch : Chat.t) : Chat.t :=
  if bool_decide (Chat.ID ch = c) then Chat.mk (Chat.ID ch) content at_
  else ch.

Definition update_chat_summary (c content : string) (at_ : Z) (d : t)
  : option t :=
  if up d then
    Some (mk (up d) (entropy d) (messages d) (chat_users d)
             (List.map (touch_chat c content at_) (chats d)))
  else None.

(** [Create(&message)]: the [BeforeCreate] hook assigns the id when it is
    empty, gorm stamps [CreatedAt], the row is inserted, and the
    [AfterCreate] hook refreshes the summary of the chat. *)
Definition create_message (m : Message.t) (at_ : Z) (d : t)
  : option (Message.t * t) :=
  if up d then
    let id := if bool_decide (Message.ID m = "") then generateUUID (entropy d)
              else Message.ID m in
    let m' := Message.mk id (Message.ChatID m) (Message.SenderID m)
                         (Message.Content m) (Message.IsRead m) at_ in
    Some (m', mk (up d) (S (entropy d)) (messages d ++ [m']) (chat_users d)
                 (List.map (touch_chat (Message.ChatID m) (Message.Content m) at_)
                           (chats d)))
  else None.

(** [Model(&Message{}).Where("chat_id = ? AND sender_id != ?", c, u)
    .Update("is_read", true)]. *)
Definition read_by (c u : string) (m : Message.t) : Message.t :=
  if bool_decide (Message.ChatID m = c) && negb (bool_decide (Message.SenderID m = u))
  then Message.set_IsRead true m else m.

Definition mark_read (c u : string) (d : t) : option t :=
  if up d then
    Some (mk (up d) (entropy d) (List.map (read_by c u) (messages d))
             (chat_users d) (chats d))
  else None.

Definition of_chat (c : string) (d : t) : list Message.t :=
  List.filter (fun m => bool_decide (Message.ChatID m = c)) (messages d).

(** [Where("chat_id = ?", c).Count(&total)]; an error leaves [total] 0. *)
Definition count_messages (c : string) (d : t) : Z :=
  if up d then Z.of_nat (length (of_chat c d)) else 0.

(** [Where("chat_id = ?", c).Order("created_at DESC").Limit(l).Offset(o)
    .Find(&messages)].  Rows are kept in creation order, so the newest
    row comes first in the reversed table.  gorm writes [LIMIT l] only
    for [l >= 0] and [OFFSET o] only for [o > 0]: a negative limit
    returns every row, and with a positive offset it leaves an [OFFSET]
    without a [LIMIT], which MySQL turns down. *)
Definition page_of_messages (c : string) (limit offset : Z) (d : t)
  : option (list Message.t) :=
  if up d then
    let rows := drop (Z.to_nat offset) (rev (of_chat c d)) in
    if 0 <=? limit then Some (take (Z.to_nat limit) rows)
    else if 0 <? offset then None
    else Some rows
  else None.

(** [Where("user_id = ?", u).Find(&chatUsers)]. *)
Definition find_user_chats (u : string) (d : t) : option (list ChatUser.t) :=
  if up d then
    Some (List.filter (fun cu => bool_decide (ChatUser.UserID cu = u)) (chat_users d))
  else None.

(** [Where("id = ?", c).First(&chat)]. *)
Definition first_chat (c : string) (d : t) : option Chat.t :=
  if up d then List.find (fun ch => bool_decide (Chat.ID ch = c)) (chats d)
  else None.

(** [Delete(&models.Chat{}, "id = ?", c)]: a soft delete.  Every query on
    chats skips the rows so marked; [chats] lists the rows still seen. *)
Definition delete_chat (c : string) (d : t) : option t :=
  if up d then
    Some (mk (up d) (entropy d) (messages d) (chat_users d)
             (List.filter (fun ch => negb (bool_decide (Chat.ID ch = c))) (chats d)))
  else None.

End DB.

(** ** The Redis server *)

Module Redis.

(** What a key holds.  A string value that reads as a decimal integer is
    [VInt]; the JSON documents the chat code stores are kept decoded:
    [VPage] is the object [{messages, total}] the service caches, [VList]
    the bare array the controller caches, [VStr] any other string. *)
Inductive value :=
| VInt (n : Z)
| VStr (s : string)
| VSet (members : gset string)
| VPage (msgs : list Message.t) (total : Z)
| VList (msgs : list Message.t).

Record entry := mk { val : value; expiry : option Z }.

Abbreviation store := (gmap string entry).

Definition max_int64 : Z := 9223372036854775807.
Definition min_int64 : Z := -9223372036854775808.

(** A key with an expiry is gone once the clock reaches it. *)
Definition live (now : Z) (e : entry) : bool :=
  match expiry e with
  | None => true
  | Some t => now <? t
  end.

Definition lookup (now : Z) (k : string) (r : store) : option entry :=
  match r !! k with
  | Some e => if live now e then Some e else None
  | None => None
  end.

(** [EXISTS k]. *)
Definition Exists (now : Z) (k : string) (r : store) : Z :=
  match lookup now k r with Some _ => 1 | None => 0 end.

(** [GET k] read with [.Int64()]: an error for a missing key and for a
    value that is no 64-bit integer. *)
Definition GetInt64 (now : Z) (k : string) (r : store) : option Z :=
  match lookup now k r with
  | Some e =>
    match val e with
    | VInt n => if (min_int64 <=? n) && (n <=? max_int64) then Some n else None
    | _ => None
    end
  | None => None
  end.

(** [GET k] read with [.Result()]: the stored string. *)
Definition Get (now : Z) (k : string) (r : store) : option value :=
  match lookup now k r with
  | Some e =>
    match val e with
    | VSet _ => None
    | v => Some v
    end
  | None => None
  end.

(** [SET k v EX ttl]. *)
Definition Set_ (now : Z) (k : string) (v : value) (ttl : Z) (r : store) : store :=
  <[k := mk v (Some (now + ttl))]> r.

(** [INCR k]: a missing key counts from 0 and gets no expiry; a key that
    holds no integer, or the largest one, is left alone (the command
    fails). *)
Definition Incr (now : Z) (k : string) (r : store) : store :=
  match lookup now k r with
  | None => <[k := mk (VInt 1) None]> r
  | Some e =>
    match val e with
    | VInt n => if n <? max_int64 then <[k := mk (VInt (n + 1)) (expiry e)]> r
                else r
    | _ => r
    end
  end.

(** What [INCR k] leaves under [k]. *)
Definition incremented (now : Z) (k : string) (r : store) : value :=
  match lookup now k r with
  | None => VInt 1
  | Some e =>
    match val e with
    | VInt n => if n <? max_int64 then VInt (n + 1) else VInt n
    | v => v
    end
  end.

(** [EXPIRE k ttl]: nothing on a missing key. *)
Definition Expire (now : Z) (k : string) (ttl : Z) (r : store) : store :=
  match lookup now k r with
  | Some e => <[k := mk (val e) (Some (now + ttl))]> r
  | None => r
  end.

(** [DEL k]. *)
Definition Del (k : string) (r : store) : store := delete k r.

(** [KEYS p*], for a prefix [p] free of the characters a pattern reads
    as a glob ([*], [?], [[] and the backslash): the live keys that start
    with [p].  [clearChatCaches] and [processAfterSend] pass fixed
    prefixes and generated chat ids; [GetUnreadCount] splices the user id
    into the pattern, and for a user id with a glob character [KEYS]
    matches keys this filter does not. *)
Definition Keys (now : Z) (p : string) (r : store) : list string :=
  List.filter (String.prefix p)
              (List.map fst (List.filter (fun ke => live now (snd ke))
                                         (map_to_list r))).

(** [SADD k m]. *)
Definition SAdd (now : Z) (k m : string) (r : store) : store :=
  match lookup now k r with
  | None => <[k := mk (VSet {[m]}) None]> r
  | Some e =>
    match val e with
    | VSet s => <[k := mk (VSet ({[m]} ∪ s)) (expiry e)]> r
    | _ => r
    end
  end.

(** [SREM k m]; the key goes with its last member. *)
Definition SRem (now : Z) (k m : string) (r : store) : store :=
  match lookup now k r with
  | None => r
  | Some e =>
    match val e with
    | VSet s =>
      if bool_decide (s ∖ {[m]} = ∅) then delete k r
      else <[k := mk (VSet (s ∖ {[m]})) (expiry e)]> r
    | _ => r
    end
  end.

(** [SMEMBERS k]. *)
Definition SMembers (now : Z) (k : string) (r : store) : option (list string) :=
  match lookup now k r with
  | None => Some []
  | Some e =>
    match val e with
    | VSet s => Some (elements s)
    | _ => None
    end
  end.

(** [KEYS k] for a pattern [k] without glob characters: the key itself,
    if it is there. *)
Definition KeysExact (now : Z) (k : string) (r : store) : list string :=
  match lookup now k r with
  | Some _ => [k]
  | None => []
  end.

End Redis.

(** ** The environment shared by the service and the controller *)

Module Env.

Record t := mk {
  now : Z;
  db : DB.t;
  redis : Redis.store;
  redis_client : bool
}.

Definition set_db (d : DB.t) (e : t) : t :=
  mk (now e) d (redis e) (redis_client e).

Definition set_redis (r : Redis.store) (e : t) : t :=
  mk (now e) (db e) r (redis_client e).

(** The clock moves on by [dt] seconds. *)
Definition tick (dt : Z) (e : t) : t :=
  mk (now e + dt) (db e) (redis e) (redis_client e).

(** The relational store goes down ([false]) or comes back ([true]). *)
Definition set_up (b : bool) (e : t) : t :=
  mk (now e)
     (DB.mk b (DB.entropy (db e)) (DB.messages (db e)) (DB.chat_users (db e))
            (DB.chats (db e)))
     (redis e) (redis_client e).

End Env.

Definition minute : Z := 60.
Definition hour : Z := 60 * minute.

(** What a call comes back with: a value, an error, or not at all. *)
Inductive outcome (A : Type) :=
| Ok (a : A)
| Err (msg : string)
| Blocked.
Arguments Ok {A} a.
Arguments Err {A} msg.
Arguments Blocked {A}.

(** Go's [int] and [int64] arithmetic wraps around at 64 bits. *)
Definition wrap64 (x : Z) : Z := (x + 2 ^ 63) mod 2 ^ 64 - 2 ^ 63.

(** [fmt.Sprintf("unread:%s:", userID)]. *)
Definition unread_prefix (userID : string) : string := "unread:" +:+ userID +:+ ":".

(** [fmt.Sprintf("unread:%s:%s", userID, chatID)]. *)
Definition unread_key (userID chatID : string) : string :=
  unread_prefix userID +:+ chatID.

Definition online_key (userID : string) : string := "online:" +:+ userID.

(** [fmt.Sprintf("chat:%s:messages:page:%d", chatID, page)]. *)
Definition page_key (chatID : string) (page : Z) : string :=
  "chat:" +:+ chatID +:+ ":messages:page:" +:+ pretty page.

(** The expiry put on an unread counter: [7*24*time.Hour]. *)
Definition unread_ttl : Z := 7 * 24 * hour.

(** ** services.ChatService *)

Module ChatService.

Record MessageTask := mkTask {
  ChatID : string;
  UserID : string;
  Content : string;
  Timestamp : Z
}.

(** [processQueue] carries [MessageProcessTask]s, each a pointer to the
    message created; the queue holds the messages. *)
Record t := mk {
  messageQueue : list MessageTask;
  processQueue : list Message.t;
  onlineUsers : gmap string Z
}.

(** [make(chan *MessageTask, 2000)], [make(chan *MessageProcessTask, 2000)]. *)
Definition messageQueue_cap : nat := 2000.
Definition processQueue_cap : nat := 2000.

Definition NewChatService : t := mk [] [] ∅.

Definition set_messageQueue (q : list MessageTask) (cs : t) : t :=
  mk q (processQueue cs) (onlineUsers cs).
Definition set_processQueue (q : list Message.t) (cs : t) : t :=
  mk (messageQueue cs) q (onlineUsers cs).
Definition set_onlineUsers (o : gmap string Z) (cs : t) : t :=
  mk (messageQueue cs) (processQueue cs) o.

Definition err_empty : string := "message content cannot be empty".
Definition err_too_long : string :=
  "message content is too long (max 1000 characters)".
Definition err_send_permission : string :=
  "you don't have permission to send messages in this chat".
Definition err_access_permission : string :=
  "you don't have permission to access this chat".
Definition err_create : string := "failed to create message".
Definition err_get : string := "failed to get messages".
Definition err_mark : string := "failed to mark messages as read".
Definition err_update : string := "failed to update chat".
Definition err_find : string := "failed to find chat users".
Definition err_redis : string := "redis not available".

(** The message [SendMessage] and [processMessageDirect] build from a task:
    no id yet, the zero time. *)
Definition message_of (task : MessageTask) : Message.t :=
  Message.mk "" (ChatID task) (UserID task) (Content task) false 0.

Definition processMessageDirect (task : MessageTask) (st : t * Env.t)
  : (t * Env.t) * outcome Message.t :=
  let '(cs, e) := st in
  match DB.create_message (message_of task) (Env.now e) (Env.db e) with
  | None => (st, Err err_create)
  | Some (message, d) =>
    let e' := Env.set_db d e in
    if (length (processQueue cs) <? processQueue_cap)%nat then
      ((set_processQueue (processQueue cs ++ [message]) cs, e'), Ok message)
    else ((cs, e'), Blocked)
  end.

Definition SendMessage (chatID userID content : string) (st : t * Env.t)
  : (t * Env.t) * outcome Message.t :=
  let '(cs, e) := st in
  if bool_decide (content = "") then (st, Err err_empty)
  else if (1000 <? String.length content)%nat then (st, Err err_too_long)
  else
    match DB.first_chat_user chatID userID (Env.db e) with
    | None => (st, Err err_send_permission)
    | Some _ =>
      let task := mkTask chatID userID content (Env.now e) in
      if (length (messageQueue cs) <? messageQueue_cap)%nat then
        ((set_messageQueue (messageQueue cs ++ [task]) cs, e),
         Ok (Message.mk "" chatID userID content false 0))
      else processMessageDirect task st
    end.

(** One pass of the loop over the participants in [processAfterSend]. *)
Definition bump_unread (now : Z) (client : bool) (message : Message.t)
           (r : Redis.store) (chatUser : ChatUser.t) : Redis.store :=
  if bool_decide (ChatUser.UserID chatUser ≠ Message.SenderID message) then
    if client then
      let unreadKey := unread_key (ChatUser.UserID chatUser) (Message.ChatID message) in
      Redis.Expire now unreadKey unread_ttl (Redis.Incr now unreadKey r)
    else r
  else r.

(** [Keys("chat:*")] and a [Del] of each key found. *)
Definition clear_chat_keys (now : Z) (r : Redis.store) : Redis.store :=
  foldl (fun acc key => Redis.Del key acc) r (Redis.Keys now "chat:" r).

(** The [Publish] that ends [processAfterSend] changes neither store; it
    is left out. *)
Definition processAfterSend (message : Message.t) (e : Env.t)
  : Env.t * option string :=
  match DB.update_chat_summary (Message.ChatID message) (Message.Content message)
                               (Env.now e) (Env.db e) with
  | None => (e, Some err_update)
  | Some d =>
    let e1 := Env.set_db d e in
    match DB.find_chat_users (Message.ChatID message) d with
    | None => (e1, Some err_find)
    | Some chatUsers =>
      let r1 := foldl (bump_unread (Env.now e) (Env.redis_client e) message)
                      (Env.redis e) chatUsers in
      let r2 := if Env.redis_client e then clear_chat_keys (Env.now e) r1 else r1 in
      (Env.set_redis r2 e1, None)
    end
  end.

(** One turn of a [messageSender] worker: take a task, process it. *)
Definition messageSender (st : t * Env.t) : t * Env.t :=
  let '(cs, e) := st in
  match messageQueue cs with
  | [] => st
  | task :: q => fst (processMessageDirect task (set_messageQueue q cs, e))
  end.

(** One turn of a [messageProcessor] worker. *)
Definition messageProcessor (st : t * Env.t) : t * Env.t :=
  let '(cs, e) := st in
  match processQueue cs with
  | [] => st
  | message :: q => (set_processQueue q cs, fst (processAfterSend message e))
  end.

Definition MarkAsRead (chatID userID : string) (e : Env.t)
  : Env.t * option string :=
  match DB.mark_read chatID userID (Env.db e) with
  | None => (e, Some err_mark)
  | Some d =>
    let e1 := Env.set_db d e in
    if Env.redis_client e then
      (Env.set_redis (Redis.Del (unread_key userID chatID) (Env.redis e)) e1, None)
    else (e1, None)
  end.

Definition GetMessages (chatID userID : string) (page limit : Z) (e : Env.t)
  : Env.t * outcome (list Message.t * Z) :=
  let offset := wrap64 (wrap64 (page - 1) * limit) in
  match DB.first_chat_user chatID userID (Env.db e) with
  | None => (e, Err err_access_permission)
  | Some _ =>
    let cacheKey := page_key chatID page in
    let cached :=
      if Env.redis_client e then
        match Redis.Get (Env.now e) cacheKey (Env.redis e) with
        | Some (Redis.VPage msgs total) => Some (msgs, total)
        | _ => None
        end
      else None in
    match cached with
    | Some result => (e, Ok result)
    | None =>
      let total := DB.count_messages chatID (Env.db e) in
      match DB.page_of_messages chatID limit offset (Env.db e) with
      | None => (e, Err err_get)
      | Some found =>
        let messages := rev found in
        let e1 :=
          if Env.redis_client e then
            Env.set_redis (Redis.Set_ (Env.now e) cacheKey
                                      (Redis.VPage messages total)
                                      (5 * minute) (Env.redis e)) e
          else e in
        (fst (MarkAsRead chatID userID e1), Ok (messages, total))
      end
    end
  end.

(** One pass of the loop over the keys in [GetUnreadCount].  Every key
    [Redis.Keys] finds starts with the prefix, so the slice
    [key[len(prefix):]] is in range. *)
Definition tally (now : Z) (userID : string) (r : Redis.store)
           (acc : gmap string Z * Z) (key : string) : gmap string Z * Z :=
  let chatID := GoString.drop (String.length (unread_prefix userID)) key in
  let count := default 0 (Redis.GetInt64 now key r) in
  (<[chatID := count]> (fst acc), wrap64 (snd acc + count)).

Definition GetUnreadCount (userID : string) (e : Env.t)
  : option (gmap string Z * Z) :=
  if Env.redis_client e then
    let keys := Redis.Keys (Env.now e) (unread_prefix userID) (Env.redis e) in
    Some (foldl (tally (Env.now e) userID (Env.redis e)) (∅, 0) keys)
  else None.

Definition SetUserOnline (userID : string) (st : t * Env.t) : t * Env.t :=
  let '(cs, e) := st in
  let cs' := set_onlineUsers (<[userID := Env.now e]> (onlineUsers cs)) cs in
  if Env.redis_client e then
    (cs', Env.set_redis
            (Redis.SAdd (Env.now e) "online:users" userID
               (Redis.Set_ (Env.now e) (online_key userID) (Redis.VInt 1)
                           (5 * minute) (Env.redis e))) e)
  else (cs', e).

Definition SetUserOffline (userID : string) (st : t * Env.t) : t * Env.t :=
  let '(cs, e) := st in
  let cs' := set_onlineUsers (delete userID (onlineUsers cs)) cs in
  if Env.redis_client e then
    (cs', Env.set_redis
            (Redis.SRem (Env.now e) "online:users" userID
               (Redis.Del (online_key userID) (Env.redis e))) e)
  else (cs', e).

Definition IsUserOnline (userID : string) (st : t * Env.t) : bool :=
  let '(cs, e) := st in
  match onlineUsers cs !! userID with
  | Some _ => true
  | None =>
    if Env.redis_client e then
      0 <? Redis.Exists (Env.now e) (online_key userID) (Env.redis e)
    else false
  end.

Definition GetOnlineUsers (e : Env.t) : outcome (list string) :=
  if Env.redis_client e then
    match Redis.SMembers (Env.now e) "online:users" (Env.redis e) with
    | Some l => Ok l
    | None => Err "WRONGTYPE"
    end
  else Err err_redis.

Record ChatWithUnread := mkChatWithUnread {
  Chat : Chat.t;
  UnreadCount : Z
}.

(** The body of the goroutine [GetChats] starts for a chat: the chat,
    when it is found, with the unread count read from Redis. *)
Definition chat_with_unread (userID : string) (e : Env.t) (id : string)
  : option ChatWithUnread :=
  match DB.first_chat id (Env.db e) with
  | Some chat =>
    Some (mkChatWithUnread chat
            (if Env.redis_client e then
               default 0 (Redis.GetInt64 (Env.now e) (unread_key userID id)
                                         (Env.redis e))
             else 0))
  | None => None
  end.

(** [if chats[i].Chat.UpdatedAt.Before(chats[j].Chat.UpdatedAt)] then
    swap them. *)
Definition swap_if_before (i j : nat) (chats : list ChatWithUnread)
  : list ChatWithUnread :=
  match chats !! i, chats !! j with
  | Some a, Some b =>
    if Chat.UpdatedAt (Chat a) <? Chat.UpdatedAt (Chat b)
    then <[j := a]> (<[i := b]> chats)
    else chats
  | _, _ => chats
  end.

(** The inner loop of the sort, [for j := i + 1; j < len(chats); j++]. *)
Definition sort_pass (i : nat) (chats : list ChatWithUnread) : list ChatWithUnread :=
  foldl (fun acc j => swap_if_before i j acc) chats
        (seq (S i) (length chats - S i)).

(** The outer loop, [for i := 0; i < len(chats)-1; i++]. *)
Definition sort_chats (chats : list ChatWithUnread) : list ChatWithUnread :=
  foldl (fun acc i => sort_pass i acc) chats (seq 0 (length chats - 1)).

Definition err_chats : string := "failed to get chats".

(** [GetChats]; the goroutines append their chats in the order of the
    membership rows. *)
Definition GetChats (userID : string) (e : Env.t) : outcome (list ChatWithUnread) :=
  match DB.find_user_chats userID (Env.db e) with
  | None => Err err_chats
  | Some chatUsers =>
    if bool_decide (length chatUsers = 0%nat) then Ok []
    else
      let chatIDs := List.map ChatUser.ChatID chatUsers in
      Ok (sort_chats (omap (chat_with_unread userID e) chatIDs))
  end.

Definition GetOnlineUserCount (e : Env.t) : outcome Z :=
  if Env.redis_client e then
    match Redis.SMembers (Env.now e) "online:users" (Env.redis e) with
    | Some l => Ok (Z.of_nat (length l))
    | None => Err "WRONGTYPE"
    end
  else Err err_redis.

Definition err_delete_permission : string :=
  "you don't have permission to delete this chat".
Definition err_delete : string := "failed to delete chat".

(** [clearChatCaches]: the keys matching [chat:<id>], then those matching
    [chat:<id>:messages:*], are looked up and deleted. *)
Definition clearChatCaches (chatID : string) (e : Env.t) : Env.t :=
  if Env.redis_client e then
    let r0 := Env.redis e in
    let r1 := foldl (fun acc k => Redis.Del k acc) r0
                    (Redis.KeysExact (Env.now e) ("chat:" +:+ chatID) r0) in
    let r2 := foldl (fun acc k => Redis.Del k acc) r1
                    (Redis.Keys (Env.now e) ("chat:" +:+ chatID +:+ ":messages:") r1) in
    Env.set_redis r2 e
  else e.

Definition DeleteChat (chatID userID : string) (e : Env.t) : Env.t * option string :=
  match DB.first_chat_user chatID userID (Env.db e) with
  | None => (e, Some err_delete_permission)
  | Some _ =>
    match DB.delete_chat chatID (Env.db e) with
    | None => (e, Some err_delete)
    | Some d => (clearChatCaches chatID (Env.set_db d e), None)
    end
  end.

(** One pass of the [Range] of [cleanupOnlineUsers] over [onlineUsers]. *)
Definition forget_stale (now : Z) (client : bool)
           (acc : gmap string Z * Redis.store) (entry : string * Z)
  : gmap string Z * Redis.store :=
  let '(userID, lastSeen) := entry in
  if 5 * minute <? now - lastSeen then
    (delete userID (fst acc),
     if client then
       Redis.SRem now "online:users" userID (Redis.Del (online_key userID) (snd acc))
     else snd acc)
  else acc.

(** What [cleanupOnlineUsers] does at one tick of its ticker. *)
Definition cleanupOnlineUsers (st : t * Env.t) : t * Env.t :=
  let '(cs, e) := st in
  let '(o, r) := foldl (forget_stale (Env.now e) (Env.redis_client e))
                       (onlineUsers cs, Env.redis e)
                       (map_to_list (onlineUsers cs)) in
  (set_onlineUsers o cs, Env.set_redis r e).

End ChatService.

(** ** The websocket transport *)

Module Net.

Inductive frame :=
| Text (s : string)
| Json (m : Message.t).

(** [open] maps every connection that was upgraded and not closed since
    to the user whose handler holds it; a write to a connection of
    [broken] (its peer is gone) fails; [wire] lists the frames written,
    oldest first. *)
Record t := mk {
  open : gmap nat string;
  broken : gset nat;
  wire : list (nat * frame)
}.

Definition writable (conn : nat) (n : t) : bool :=
  bool_decide (is_Some (open n !! conn)) && bool_decide (conn ∉ broken n).

(** [conn.WriteMessage] and [conn.WriteJSON]: the network after the call,
    and whether the write went through. *)
Definition write (conn : nat) (f : frame) (n : t) : t * bool :=
  if writable conn n then (mk (open n) (broken n) (wire n ++ [(conn, f)]), true)
  else (n, false).

(** [upgrader.Upgrade] hands out [conn]. *)
Definition upgrade (conn : nat) (userID : string) (n : t) : t :=
  mk (<[conn := userID]> (open n)) (broken n) (wire n).

(** [conn.Close()]. *)
Definition close (conn : nat) (n : t) : t :=
  mk (delete conn (open n)) (broken n) (wire n).

(** The connections of [userID] that are open. *)
Definition live_connections (userID : string) (n : t) : list nat :=
  List.map fst (List.filter (fun cu => bool_decide (snd cu = userID))
                            (map_to_list (open n))).

End Net.

(** ** controllers.ChatController *)

Module ChatController.

Record MessageTask := mkTask {
  ChatID : string;
  UserID : string;
  Content : string
}.

Record t := mk {
  clients : gmap string nat;
  messageQueue : list MessageTask
}.

(** [make(chan MessageTask, 1000)]. *)
Definition messageQueue_cap : nat := 1000.

Definition NewChatController : t := mk ∅ [].

(** The controller with the network and the environment around it.  Its
    Redis client, [cc.redisClient], comes from [initRedis] and is never
    nil. *)
Record state := mkState {
  cc : t;
  net : Net.t;
  env : Env.t
}.

Definition set_clients (c : gmap string nat) (st : state) : state :=
  mkState (mk c (messageQueue (cc st))) (net st) (env st).
Definition set_messageQueue (q : list MessageTask) (st : state) : state :=
  mkState (mk (clients (cc st)) q) (net st) (env st).
Definition set_net (n : Net.t) (st : state) : state :=
  mkState (cc st) n (env st).
Definition set_env (e : Env.t) (st : state) : state :=
  mkState (cc st) (net st) e.
Definition set_redis (r : Redis.store) (st : state) : state :=
  set_env (Env.set_redis r (env st)) st.

Definition sendMessageToUser (userID : string) (message : Message.t)
           (st : state) : state :=
  let st1 :=
    match clients (cc st) !! userID with
    | Some conn => set_net (fst (Net.write conn (Net.Json message) (net st))) st
    | None => st
    end in
  let key := "unread:" +:+ userID +:+ ":" +:+ Message.ChatID message in
  let now := Env.now (env st1) in
  set_redis (Redis.Expire now key (hour * 24 * 7)
               (Redis.Incr now key (Env.redis (env st1)))) st1.

(** [processMessage]: the state after it and the error it returns.  A
    failing [Find] leaves [chatUsers] empty. *)
Definition processMessage (task : MessageTask) (st : state)
  : state * option string :=
  let message := Message.mk "" (ChatID task) (UserID task) (Content task) false 0 in
  match DB.create_message message (Env.now (env st)) (Env.db (env st)) with
  | None => (st, Some "create failed")
  | Some (message, d) =>
    let st1 := set_env (Env.set_db d (env st)) st in
    let chatUsers := default [] (DB.find_chat_users (ChatID task) d) in
    (foldl (fun acc chatUser =>
              if bool_decide (ChatUser.UserID chatUser ≠ UserID task)
              then sendMessageToUser (ChatUser.UserID chatUser) message acc
              else acc)
           st1 chatUsers, None)
  end.

(** One turn of a [messageWorker]. *)
Definition messageWorker (st : state) : state :=
  match messageQueue (cc st) with
  | [] => st
  | task :: q => fst (processMessage task (set_messageQueue q st))
  end.



(** The responses of the HTTP handlers: the status code and the body. *)
Inductive body :=
| BError (msg : string)
| BInfo (msg : string)
| BMessages (messages : list Message.t) (total : option Z).

(** [SendMessage]: [req.Content] is bound with [required,max=1000]; the
    validator counts the runes of a string. *)
Definition SendMessage (userID chatID content : string) (st : state)
  : state * (Z * body) :=
  if bool_decide (content = "")
     || (1000 <? GoString.RuneCountInString content)%nat
  then (st, (400, BError "invalid content"))
  else
    match DB.first_chat_user chatID userID (Env.db (env st)) with
    | None =>
      (st, (403, BError "You don't have permission to send messages in this chat"))
    | Some _ =>
      let task := mkTask chatID userID content in
      if (length (messageQueue (cc st)) <? messageQueue_cap)%nat then
        (set_messageQueue (messageQueue (cc st) ++ [task]) st,
         (202, BInfo "Message queued for delivery"))
      else
        (fst (processMessage task st), (201, BInfo "Message sent successfully"))
    end.

(** [GetMessages]; [page] and [limit] are the query parameters once
    parsed. *)
Definition GetMessages (userID chatID : string) (page limit : Z) (st : state)
  : state * (Z * body) :=
  let e := env st in
  let offset := wrap64 (wrap64 (page - 1) * limit) in
  match DB.first_chat_user chatID userID (Env.db e) with
  | None => (st, (403, BError "You don't have permission to access this chat"))
  | Some _ =>
    let cacheKey := "chat:" +:+ chatID +:+ ":messages:page:" +:+ pretty page in
    match Redis.Get (Env.now e) cacheKey (Env.redis e) with
    | Some (Redis.VList msgs) => (st, (200, BMessages msgs None))
    | _ =>
      let total := DB.count_messages chatID (Env.db e) in
      match DB.page_of_messages chatID limit offset (Env.db e) with
      | None => (st, (500, BError "Failed to get messages"))
      | Some found =>
        let messages := rev found in
        let d := default (Env.db e) (DB.mark_read chatID userID (Env.db e)) in
        let r1 := Redis.Del ("unread:" +:+ userID +:+ ":" +:+ chatID) (Env.redis e) in
        let r2 := Redis.Set_ (Env.now e) cacheKey (Redis.VList messages)
                             (minute * 5) r1 in
        (set_env (Env.set_redis r2 (Env.set_db d e)) st,
         (200, BMessages messages (Some total)))
      end
    end
  end.

(** [HandleWebSocket], up to its read loop: the handshake hands out
    [conn], the connection is stored under [userID], the user is flagged
    online.  [sendUnreadMessages] replays the lists kept under
    [chat:<id>:last_messages]; nothing fills them, it writes no frame. *)
Definition HandleWebSocket_open (userID : string) (conn : nat) (st : state)
  : state :=
  if bool_decide (userID = "") then st
  else
    let st1 := set_net (Net.upgrade conn userID (net st)) st in
    let st2 := set_clients (<[userID := conn]> (clients (cc st1))) st1 in
    set_redis (Redis.Set_ (Env.now (env st2)) (online_key userID) (Redis.VInt 1)
                          (minute * 5) (Env.redis (env st2))) st2.

(** [HandleWebSocket], after its read loop: the clean-up, then the
    deferred [conn.Close()]. *)
Definition HandleWebSocket_close (userID : string) (conn : nat) (st : state)
  : state :=
  let st1 := set_clients (delete userID (clients (cc st))) st in
  let st2 := set_redis (Redis.Del (online_key userID) (Env.redis (env st1))) st1 in
  set_net (Net.close conn (net st2)) st2.

(** A frame read from a connection: bytes that are no JSON object, or an
    object with its [type], and its [chat_id] and [content] when they are
    strings. *)
Inductive incoming :=
| Unparsable
| Typed (type : string) (chat_id content : option string).

(** One turn of the read loop of [HandleWebSocket]: the state after it,
    and whether the loop goes on ([false]: it is blocked on the full
    queue). *)
Definition HandleWebSocket_frame (userID : string) (conn : nat) (f : incoming)
           (st : state) : state * bool :=
  match f with
  | Unparsable => (st, true)
  | Typed type chat_id content =>
    if bool_decide (type = "message") then
      match chat_id, content with
      | Some chatID, Some content =>
        if (length (messageQueue (cc st)) <? messageQueue_cap)%nat then
          (set_messageQueue (messageQueue (cc st) ++ [mkTask chatID userID content]) st,
           true)
        else (st, false)
      | _, _ => (st, true)
      end
    else if bool_decide (type = "ping") then
      (set_net (fst (Net.write conn (Net.Text "pong") (net st))) st, true)
    else (st, true)
  end.

End ChatController.

(** ** Observations and histories *)

(** The unread counter of [(userID, chatID)] as [GetUnreadCount userID]
    reports it: the entry of [chatID] in the map returned, 0 when the map
    has none; nothing when the call fails. *)
Definition unread (userID chatID : string) (e : Env.t) : option Z :=
  match ChatService.GetUnreadCount userID e with
  | Some (chatUnread, _) => Some (default 0 (chatUnread !! chatID))
  | None => None
  end.

(** [userID] is in the list [GetOnlineUsers] returns. *)
Definition listed (userID : string) (e : Env.t) : Prop :=
  ∃ l, ChatService.GetOnlineUsers e = Ok l ∧ userID ∈ l.

(** Identifiers are UUIDs: no [':'] in them. *)
Fixpoint no_colon (s : string) : bool :=
  match s with
  | EmptyString => true
  | String c s' => negb (bool_decide (c = ":"%char)) && no_colon s'
  end.

(** An id free of the characters [KEYS] reads as a glob: [*], [?], [[]
    and the backslash.  For such a user id the pattern of
    [GetUnreadCount] matches the keys under [unread:<id>:] and no
    other. *)
Fixpoint no_glob (s : string) : bool :=
  match s with
  | EmptyString => true
  | String c s' =>
    negb (bool_decide (c = "*"%char) || bool_decide (c = "?"%char)
          || bool_decide (c = "["%char) || bool_decide (c = "\"%char))
    && no_glob s'
  end.

(** [userID] is a participant of [chatID]: a membership row says so. *)
Definition participant (chatID userID : string) (d : DB.t) : Prop :=
  ∃ cu, cu ∈ DB.chat_users d
        ∧ ChatUser.ChatID cu = chatID ∧ ChatUser.UserID cu = userID.

(** A message is persisted: it is a row of the [messages] table. *)
Definition persisted (m : Message.t) (e : Env.t) : Prop :=
  m ∈ DB.messages (Env.db e).

Module Trace.

(** What happens to the unread counters: a worker delivers a message
    ([processAfterSend]), a user acknowledges a chat ([MarkAsRead]), the
    clock moves on. *)
Inductive event :=
| Deliver (m : Message.t)
| Read (userID chatID : string)
| Tick (dt : N).

Definition step (e : Env.t) (ev : event) : Env.t :=
  match ev with
  | Deliver m => fst (ChatService.processAfterSend m e)
  | Read userID chatID => fst (ChatService.MarkAsRead chatID userID e)
  | Tick dt => Env.tick (Z.of_N dt) e
  end.

Definition run (tr : list event) (e : Env.t) : Env.t := foldl step e tr.

(** The user named in an acknowledgement has a well-formed id. *)
Definition wf (ev : event) : bool :=
  match ev with
  | Read userID _ => no_colon userID
  | _ => true
  end.

(** The seconds the clock moves over a history. *)
Definition elapsed (tr : list event) : Z :=
  foldl (fun acc ev => match ev with Tick dt => acc + Z.of_N dt | _ => acc end)
        0 tr.

End Trace.

(** The unread counter of the specification, for one user [u] and one
    conversation [c], read off a history. *)
Module Counter.

(** A delivered message counts for [u] in [c]: it is a message of [c]
    that [u] did not send. *)
Definition counts (u c : string) (m : Message.t) : bool :=
  bool_decide (Message.ChatID m = c) && bool_decide (Message.SenderID m ≠ u).

(** The number of messages that count, delivered since the last
    [Read u c]. *)
Definition since_reset_step (u c : string) (n : Z) (ev : Trace.event) : Z :=
  match ev with
  | Trace.Deliver m => if counts u c m then n + 1 else n
  | Trace.Read u' c' =>
    if bool_decide (u' = u) && bool_decide (c' = c) then 0 else n
  | Trace.Tick _ => n
  end.

Definition since_reset (u c : string) (tr : list Trace.event) : Z :=
  foldl (since_reset_step u c) 0 tr.

(** The same count, cut as well by an expiry: [idle] is the time since
    the counter was last incremented, and a counter left idle for
    [unread_ttl] is gone. *)
Record t := mk { count : Z; idle : Z }.

Definition reading (a : t) : Z :=
  if unread_ttl <=? idle a then 0 else count a.

Definition step (u c : string) (a : t) (ev : Trace.event) : t :=
  match ev with
  | Trace.Deliver m => if counts u c m then mk (reading a + 1) 0 else a
  | Trace.Read u' c' =>
    if bool_decide (u' = u) && bool_decide (c' = c) then mk 0 (idle a) else a
  | Trace.Tick dt => mk (count a) (idle a + Z.of_N dt)
  end.

Definition run (u c : string) (tr : list Trace.event) : t :=
  foldl (step u c) (mk 0 0) tr.

End Counter.

(** The membership rows for which the loop of [processAfterSend] over the
    participants of [message] increments the key [k]. *)
Definition hits (message : Message.t) (k : string) (cu : ChatUser.t) : bool :=
  bool_decide (ChatUser.UserID cu ≠ Message.SenderID message)
  && bool_decide (k = unread_key (ChatUser.UserID cu) (Message.ChatID message)).

(** [u] has exactly one membership row in [c]. *)
Definition member_once (u c : string) (d : DB.t) : Prop :=
  length (List.filter (fun cu => bool_decide (ChatUser.ChatID cu = c)
                                 && bool_decide (ChatUser.UserID cu = u))
                      (DB.chat_users d)) = 1%nat.

(** Every membership row names a user with a well-formed id. *)
Definition users_wf (d : DB.t) : Prop :=
  Forall (fun cu => no_colon (ChatUser.UserID cu) = true) (DB.chat_users d).

(** The deployment the unread counter of [(u, c)] is read in: Redis is
    configured, the store is up, ids are well formed, [u] is a participant
    of [c]. *)
Definition settled (u c : string) (e : Env.t) : Prop :=
  Env.redis_client e = true ∧ DB.up (Env.db e) = true
  ∧ users_wf (Env.db e) ∧ member_once u c (Env.db e) ∧ no_colon u = true.

(** The key of [(u, c)] holds what the counter [a] of the specification
    says: no key for a count of 0, else the count, due to expire
    [unread_ttl] after the last increment. *)
Definition tracks (u c : string) (bound : Z) (e : Env.t) (a : Counter.t) : Prop :=
  0 ≤ Counter.idle a ∧ 0 ≤ Counter.count a ≤ bound
  ∧ match Env.redis e !! unread_key u c with
    | None => Counter.count a = 0
    | Some en =>
      Redis.val en = Redis.VInt (Counter.count a)
      ∧ Redis.expiry en = Some (Env.now e - Counter.idle a + unread_ttl)
      ∧ 0 < Counter.count a
    end.




(** A row of [messages] after some time: the same message, read if it was
    read before. *)
Definition ages (m m' : Message.t) : Prop :=
  Message.ID m' = Message.ID m
  ∧ Message.ChatID m' = Message.ChatID m
  ∧ Message.SenderID m' = Message.SenderID m
  ∧ Message.Content m' = Message.Content m
  ∧ Message.CreatedAt m' = Message.CreatedAt m
  ∧ (Message.IsRead m = true → Message.IsRead m' = true).

(** The table [l'] keeps the history of [l]: the rows of [l], each aged,
    then new rows. *)
Definition history_kept (l l' : list Message.t) : Prop :=
  ∃ old new, l' = old ++ new ∧ Forall2 ages l old.

(** The calls on the chat service, the turns of its workers and what the
    world around does. *)
Module Service.

Inductive call :=
| Send (chatID userID content : string)
| SenderTurn
| ProcessorTurn
| MarkAsRead (chatID userID : string)
| GetMessages (chatID userID : string) (page limit : Z)
| DeleteChat (chatID userID : string)
| SetUserOnline (userID : string)
| SetUserOffline (userID : string)
| Cleanup
| Tick (dt : N)
| StoreUp (b : bool).

Definition step (st : ChatService.t * Env.t) (c : call) : ChatService.t * Env.t :=
  match c with
  | Send chatID userID content =>
    fst (ChatService.SendMessage chatID userID content st)
  | SenderTurn => ChatService.messageSender st
  | ProcessorTurn => ChatService.messageProcessor st
  | MarkAsRead chatID userID =>
    (fst st, fst (ChatService.MarkAsRead chatID userID (snd st)))
  | GetMessages chatID userID page limit =>
    (fst st, fst (ChatService.GetMessages chatID userID page limit (snd st)))
  | DeleteChat chatID userID =>
    (fst st, fst (ChatService.DeleteChat chatID userID (snd st)))
  | SetUserOnline userID => ChatService.SetUserOnline userID st
  | SetUserOffline userID => ChatService.SetUserOffline userID st
  | Cleanup => ChatService.cleanupOnlineUsers st
  | Tick dt => (fst st, Env.tick (Z.of_N dt) (snd st))
  | StoreUp b => (fst st, Env.set_up b (snd st))
  end.

Definition run (calls : list call) (st : ChatService.t * Env.t)
  : ChatService.t * Env.t :=
  foldl step st calls.

End Service.

(** The frames the deliveries of [processMessage] put on the wire: the
    message, to the registered connection of every participant other than
    the sender, when the connection takes it. *)
Definition pushes (clients : gmap string nat) (n : Net.t) (sender : string)
           (m : Message.t) (l : list ChatUser.t) : list (nat * Net.frame) :=
  omap (fun cu =>
          if bool_decide (ChatUser.UserID cu ≠ sender) then
            match clients !! ChatUser.UserID cu with
            | Some conn => if Net.writable conn n then Some (conn, Net.Json m) else None
            | None => None
            end
          else None) l.

(** The set [online:users] is missing, or it is a set that does not
    expire. *)
Definition roster_plain (e : Env.t) : Prop :=
  match Env.redis e !! "online:users" with
  | None => True
  | Some en => (∃ s, Redis.val en = Redis.VSet s) ∧ Redis.expiry en = None
  end.

(** The chats come newest first: no chat is listed before one updated
    later. *)
Definition newest_first (chats : list ChatService.ChatWithUnread) : Prop :=
  ∀ (i j : nat) x y,
    (i < j)%nat → chats !! i = Some x → chats !! j = Some y →
    Chat.UpdatedAt (ChatService.Chat y) ≤ Chat.UpdatedAt (ChatService.Chat x).

(** The first [n] places are final: each holds a chat no older than
    every chat after it. *)
Definition leads (n : nat) (chats : list ChatService.ChatWithUnread) : Prop :=
  ∀ (i j : nat) x y,
    (i < n)%nat → (i < j)%nat → chats !! i = Some x → chats !! j = Some y →
    Chat.UpdatedAt (ChatService.Chat y) ≤ Chat.UpdatedAt (ChatService.Chat x).

(** ** A small deployment, for the examples *)

Module Scenario.

Definition alice : string := "alice".
Definition bob : string := "bob".
Definition carol : string := "carol".
Definition c1 : string := "c1".

(** One conversation, [c1], between alice and bob. *)
Definition db0 : DB.t :=
  DB.mk true 0 []
        [ChatUser.mk "r1" c1 alice 0; ChatUser.mk "r2" c1 bob 0]
        [Chat.mk c1 "" 0].

Definition e0 : Env.t := Env.mk 0 db0 ∅ true.

Definition hello : Message.t := Message.mk "m1" c1 alice "hello" false 0.

(** The character U+4E2D, three bytes in UTF-8. *)
Definition zhong : string := String "228" (String "184" (String "173" "")).

(** 334 code points in 1002 bytes. *)
Definition long_text : string := GoString.Repeat zhong 334.

(** Two deliveries an hour apart, an acknowledgement, one more delivery. *)
Definition history : list Trace.event :=
  [Trace.Deliver hello; Trace.Tick 3600; Trace.Deliver hello;
   Trace.Read bob c1; Trace.Deliver hello].

(** One delivery, then seven days without any. *)
Definition idle_week : list Trace.event :=
  [Trace.Deliver hello; Trace.Tick 604800].

(** alice sends "hello" through the service: the task is queued, a
    sender worker persists the message, a processor worker delivers
    it. *)
Definition sent : ChatService.t * Env.t :=
  fst (ChatService.SendMessage c1 alice "hello" (ChatService.NewChatService, e0)).
Definition stored : ChatService.t * Env.t := ChatService.messageSender sent.
Definition delivered : ChatService.t * Env.t := ChatService.messageProcessor stored.

(** alice then opens the conversation: page 1 is read from the store and
    cached. *)
Definition alice_has_read : Env.t :=
  fst (ChatService.GetMessages c1 alice 1 50 (snd delivered)).

Definition st0 : ChatController.state :=
  ChatController.mkState ChatController.NewChatController
                         (Net.mk ∅ ∅ []) e0.


(** alice connects on connection 1, then again on connection 2; then the
    handler of connection 1 ends. *)
Definition reconnected : ChatController.state :=
  ChatController.HandleWebSocket_open alice 2
    (ChatController.HandleWebSocket_open alice 1 st0).

(** bob is registered on connection 7, alice on connection 8. *)
Definition st_online : ChatController.state :=
  ChatController.HandleWebSocket_open alice 8
    (ChatController.HandleWebSocket_open bob 7 st0).

(** bob was last seen at 0 and alice at 400; it is now 500. *)
Definition seen_long_ago : ChatService.t * Env.t :=
  Service.run [Service.SetUserOnline bob; Service.Tick 400;
               Service.SetUserOnline alice; Service.Tick 100]
              (ChatService.NewChatService, e0).




(** bob opens the empty conversation through the controller, which
    caches page 1; alice's "hello" is then processed; a minute passes. *)
Definition bob_has_page : ChatController.state :=
  fst (ChatController.GetMessages bob c1 1 50 st0).
Definition then_sent : ChatController.state :=
  fst (ChatController.processMessage (ChatController.mkTask c1 alice "hello")
                                     bob_has_page).
Definition a_minute_later : ChatController.state :=
  ChatController.set_env (Env.tick 60 (ChatController.env then_sent)) then_sent.

(** alice is in three conversations, the second one updated last and
    with three messages she has not read. *)
Definition db3 : DB.t :=
  DB.mk true 0 []
        [ChatUser.mk "r1" c1 alice 0; ChatUser.mk "r2" c1 bob 0;
         ChatUser.mk "r3" "c2" alice 0; ChatUser.mk "r4" "c2" carol 0;
         ChatUser.mk "r5" "c3" alice 0; ChatUser.mk "r6" "c3" bob 0]
        [Chat.mk c1 "" 10; Chat.mk "c2" "" 30; Chat.mk "c3" "" 20].

Definition e3 : Env.t :=
  Env.mk 40 db3 {[unread_key alice "c2" := Redis.mk (Redis.VInt 3) None]} true.

End Scenario.

(** * Facts *)

(** ** Strings *)

Section Strings.

Lemma app_cons (a : ascii) (s t : string) :
  String a s +:+ t = String a (s +:+ t).
Proof. reflexivity. Qed.

Lemma prefix_app (p c : string) : String.prefix p (p +:+ c) = true.
Proof.
  induction p as [|a p IH]; simpl.
  - by destruct c.
  - destruct (Ascii.ascii_dec a a); [exact IH | done].
Qed.

Lemma drop_app (p c : string) : GoString.drop (String.length p) (p +:+ c) = c.
Proof. induction p as [|a p IH]; simpl; [done | exact IH]. Qed.

Lemma prefix_drop (p k : string) :
  String.prefix p k = true → k = p +:+ GoString.drop (String.length p) k.
Proof.
  revert k. induction p as [|a p IH]; intros k H; [done|].
  destruct k as [|b k]; [done|]. revert H. simpl.
  destruct (Ascii.ascii_dec a b) as [->|]; [|done].
  intros H. rewrite app_cons. f_equal. by apply IH.
Qed.

Lemma app_empty (s : string) : "" +:+ s = s.
Proof. reflexivity. Qed.

Lemma str_app_assoc (a b c : string) : (a +:+ b) +:+ c = a +:+ (b +:+ c).
Proof.
  induction a as [|x a IH]; [done|]. by rewrite !app_cons, IH.
Qed.

Lemma app_inj_l (p a b : string) : p +:+ a = p +:+ b → a = b.
Proof.
  induction p as [|x p IH]; [done|]. rewrite !app_cons. intros [= H]; auto.
Qed.

(** Two ids free of [':'] followed by [':'] split a string in one way
    only. *)
Lemma colon_split (u u' c c' : string) :
  no_colon u = true → no_colon u' = true →
  u +:+ ":" +:+ c = u' +:+ ":" +:+ c' → u = u' ∧ c = c'.
Proof.
  revert u'. induction u as [|a u IH]; intros [|a' u'] Hu Hu';
    rewrite ?app_cons, ?app_empty; intros H; simpl in Hu, Hu'.
  - by injection H.
  - injection H as <- _. rewrite bool_decide_eq_true_2 in Hu' by done. done.
  - injection H as -> _. rewrite bool_decide_eq_true_2 in Hu by done. done.
  - injection H as -> H.
    apply andb_prop in Hu as [_ Hu]. apply andb_prop in Hu' as [_ Hu'].
    destruct (IH u' Hu Hu' H) as [-> ->]. done.
Qed.

Lemma unread_key_inj (u u' c c' : string) :
  no_colon u = true → no_colon u' = true →
  unread_key u c = unread_key u' c' → u = u' ∧ c = c'.
Proof.
  intros Hu Hu'. unfold unread_key, unread_prefix.
  rewrite !str_app_assoc. intros H. apply app_inj_l in H. by apply colon_split.
Qed.

Lemma unread_key_not_chat (u c : string) :
  String.prefix "chat:" (unread_key u c) = false.
Proof. reflexivity. Qed.

Lemma unread_key_spelling (u c : string) :
  "unread:" +:+ u +:+ ":" +:+ c = unread_key u c.
Proof. unfold unread_key, unread_prefix. by rewrite !str_app_assoc. Qed.

Lemma unread_key_prefix (u c : string) :
  String.prefix (unread_prefix u) (unread_key u c) = true.
Proof. apply prefix_app. Qed.

End Strings.

(** ** The Redis commands *)

Section RedisFacts.

Implicit Types (r : Redis.store) (k p : string) (now ttl : Z).

Lemma lookup_live now k r e :
  r !! k = Some e → Redis.live now e = true → Redis.lookup now k r = Some e.
Proof. intros H L. unfold Redis.lookup. by rewrite H, L. Qed.

Lemma lookup_gone now k r : r !! k = None → Redis.lookup now k r = None.
Proof. intros H. unfold Redis.lookup. by rewrite H. Qed.

Lemma lookup_expired now k r e :
  r !! k = Some e → Redis.live now e = false → Redis.lookup now k r = None.
Proof. intros H L. unfold Redis.lookup. by rewrite H, L. Qed.

Lemma lookup_Some now k r e :
  Redis.lookup now k r = Some e → r !! k = Some e ∧ Redis.live now e = true.
Proof.
  unfold Redis.lookup. destruct (r !! k) as [e'|]; [|done].
  destruct (Redis.live now e') eqn:L; [|done]. by intros [= <-].
Qed.

Lemma Incr_other now k k' r : k ≠ k' → Redis.Incr now k r !! k' = r !! k'.
Proof.
  intros Hne. unfold Redis.Incr.
  destruct (Redis.lookup now k r) as [e|]; [|by rewrite lookup_insert_ne].
  destruct (Redis.val e) as [n| | | |]; try done.
  destruct (n <? Redis.max_int64); [by rewrite lookup_insert_ne | done].
Qed.

Lemma Expire_other now k k' ttl r :
  k ≠ k' → Redis.Expire now k ttl r !! k' = r !! k'.
Proof.
  intros Hne. unfold Redis.Expire.
  destruct (Redis.lookup now k r); [by rewrite lookup_insert_ne | done].
Qed.

(** [INCR] then [EXPIRE]: the key is there, with the new expiry. *)
Lemma Incr_Expire now k ttl r :
  Redis.Expire now k ttl (Redis.Incr now k r) !! k
  = Some (Redis.mk (Redis.incremented now k r) (Some (now + ttl))).
Proof.
  unfold Redis.Expire, Redis.Incr, Redis.incremented.
  destruct (Redis.lookup now k r) as [e|] eqn:L.
  - apply lookup_Some in L as [Hk Hl].
    assert (Hsame : Redis.lookup now k r = Some e) by by apply lookup_live.
    destruct e as [v x]; simpl in *.
    destruct v as [n| | | |];
      try (rewrite Hsame; simpl; by rewrite lookup_insert_eq).
    destruct (n <? Redis.max_int64) eqn:Hn.
    + erewrite lookup_live; [|apply lookup_insert_eq|done].
      simpl. by rewrite lookup_insert_eq.
    + rewrite Hsame. simpl. by rewrite lookup_insert_eq.
  - erewrite lookup_live; [|apply lookup_insert_eq|done].
    simpl. by rewrite lookup_insert_eq.
Qed.

Lemma foldl_Del (l : list string) r k :
  foldl (fun acc key => Redis.Del key acc) r l !! k
  = if decide (k ∈ l) then None else r !! k.
Proof.
  revert r. induction l as [|x l IH]; intros r; cbn [foldl].
  - by rewrite decide_False by apply not_elem_of_nil.
  - rewrite IH. unfold Redis.Del.
    destruct (decide (k ∈ l)) as [Hin|Hin].
    + by rewrite decide_True by (rewrite elem_of_cons; tauto).
    + destruct (decide (k = x)) as [->|Hne].
      * rewrite decide_True by (rewrite elem_of_cons; tauto). apply lookup_delete_eq.
      * rewrite decide_False by (rewrite elem_of_cons; tauto).
        by apply lookup_delete_ne.
Qed.

Lemma elem_of_Keys now p r k :
  k ∈ Redis.Keys now p r
  ↔ String.prefix p k = true ∧ is_Some (Redis.lookup now k r).
Proof.
  unfold Redis.Keys. rewrite list_elem_of_In, filter_In, in_map_iff.
  split.
  - intros [[[k' e] [<- Hin]] Hp]. split; [done|].
    apply filter_In in Hin as [Hin Hl]. simpl in *.
    apply list_elem_of_In, elem_of_map_to_list in Hin.
    exists e. by apply lookup_live.
  - intros [Hp [e He]]. apply lookup_Some in He as [Hk Hl].
    split; [|done]. exists (k, e). split; [done|].
    apply filter_In. split; [|done].
    by apply list_elem_of_In, elem_of_map_to_list.
Qed.

(** Clearing the chat caches leaves the other keys alone. *)
Lemma clear_chat_keys_other now r k :
  String.prefix "chat:" k = false →
  ChatService.clear_chat_keys now r !! k = r !! k.
Proof.
  intros Hp. unfold ChatService.clear_chat_keys. rewrite foldl_Del.
  case_decide as Hin; [|done].
  apply elem_of_Keys in Hin as [Hp' _]. congruence.
Qed.

Lemma clear_chat_keys_chat now r k :
  String.prefix "chat:" k = true →
  Redis.lookup now k (ChatService.clear_chat_keys now r) = None.
Proof.
  intros Hp. unfold ChatService.clear_chat_keys, Redis.lookup at 1.
  rewrite foldl_Del. case_decide as Hin; [done|].
  destruct (r !! k) as [e|] eqn:Hk; [|done].
  destruct (Redis.live now e) eqn:Hl; [|done].
  exfalso. apply Hin, elem_of_Keys. split; [done|].
  exists e. by apply lookup_live.
Qed.

(** The map [GetUnreadCount] builds, entry by entry. *)
Lemma tally_lookup now u r (l : list string) (acc : gmap string Z * Z) c :
  Forall (fun k => String.prefix (unread_prefix u) k = true) l →
  fst (foldl (ChatService.tally now u r) acc l) !! c
  = if decide (unread_key u c ∈ l)
    then Some (default 0 (Redis.GetInt64 now (unread_key u c) r))
    else fst acc !! c.
Proof.
  revert acc. induction l as [|k l IH]; intros acc Hl; cbn [foldl].
  - by rewrite decide_False by apply not_elem_of_nil.
  - apply Forall_cons in Hl as [Hk Hl]. rewrite IH by done.
    destruct (decide (unread_key u c ∈ l)) as [Hin|Hin].
    + by rewrite decide_True by (rewrite elem_of_cons; tauto).
    + unfold ChatService.tally at 1. cbn [fst snd].
      apply prefix_drop in Hk.
      destruct (decide (k = unread_key u c)) as [->|Hne].
      * rewrite decide_True by (rewrite elem_of_cons; tauto).
        unfold unread_key at 1. rewrite drop_app. by rewrite lookup_insert_eq.
      * rewrite decide_False
          by (rewrite elem_of_cons; intros [E|E]; [by apply Hne | by apply Hin]).
        rewrite lookup_insert_ne; [done|].
        intros Heq. apply Hne. rewrite Hk, Heq. done.
Qed.

Lemma GetInt64_absent now k r :
  Redis.lookup now k r = None → Redis.GetInt64 now k r = None.
Proof. intros H. unfold Redis.GetInt64. by rewrite H. Qed.

(** The counter reported is the integer under the key of the pair. *)
Lemma unread_read u c (e : Env.t) :
  Env.redis_client e = true →
  unread u c e
  = Some (default 0 (Redis.GetInt64 (Env.now e) (unread_key u c) (Env.redis e))).
Proof.
  intros Hc. unfold unread, ChatService.GetUnreadCount. rewrite Hc.
  destruct (foldl _ _ _) as [m tot] eqn:F.
  assert (Hm : m = fst (foldl (ChatService.tally (Env.now e) u (Env.redis e))
                              (∅, 0)
                              (Redis.Keys (Env.now e) (unread_prefix u) (Env.redis e))))
    by by rewrite F.
  rewrite Hm, tally_lookup.
  - case_decide as Hin; [done|]. simpl. rewrite lookup_empty. simpl.
    rewrite GetInt64_absent; [done|].
    destruct (Redis.lookup _ _ _) eqn:L; [|done].
    exfalso. apply Hin, elem_of_Keys. split; [apply unread_key_prefix | eauto].
  - apply Forall_forall. intros k Hk. by apply elem_of_Keys in Hk as [? _].
Qed.


End RedisFacts.

(** ** Delivery: the loop over the participants *)

Section Delivery.

Variables (now : Z) (message : Message.t).

Let bump := ChatService.bump_unread now true message.

Lemma incremented_ext k (r r' : Redis.store) :
  r' !! k = r !! k → Redis.incremented now k r' = Redis.incremented now k r.
Proof. intros H. unfold Redis.incremented, Redis.lookup. by rewrite H. Qed.

Lemma bump_other (r : Redis.store) (cu : ChatUser.t) k :
  k ≠ unread_key (ChatUser.UserID cu) (Message.ChatID message) →
  bump r cu !! k = r !! k.
Proof.
  intros Hne. unfold bump, ChatService.bump_unread.
  case_bool_decide; [|done].
  rewrite Expire_other, Incr_other; done.
Qed.

Lemma bump_skip (now' : Z) (client : bool) (r : Redis.store) (cu : ChatUser.t) :
  ChatUser.UserID cu = Message.SenderID message →
  ChatService.bump_unread now' client message r cu = r.
Proof.
  intros H. unfold ChatService.bump_unread. by rewrite bool_decide_eq_false_2 by auto.
Qed.

Lemma bump_at (r : Redis.store) (cu : ChatUser.t) :
  ChatUser.UserID cu ≠ Message.SenderID message →
  bump r cu !! unread_key (ChatUser.UserID cu) (Message.ChatID message)
  = Some (Redis.mk
            (Redis.incremented now
               (unread_key (ChatUser.UserID cu) (Message.ChatID message)) r)
            (Some (now + unread_ttl))).
Proof.
  intros H. unfold bump, ChatService.bump_unread.
  rewrite bool_decide_eq_true_2 by done. apply Incr_Expire.
Qed.




(** A loop over rows that all miss the key leaves the key alone. *)
Lemma loop_other (l : list ChatUser.t) (r : Redis.store) k :
  Forall (fun cu => ChatUser.UserID cu = Message.SenderID message
                    ∨ k ≠ unread_key (ChatUser.UserID cu) (Message.ChatID message)) l →
  foldl bump r l !! k = r !! k.
Proof.
  revert r. induction l as [|x l IH]; intros r Hl; cbn [foldl]; [done|].
  apply Forall_cons in Hl as [Hx Hl]. rewrite IH by done.
  destruct Hx as [Hx|Hx].
  - unfold bump. by rewrite bump_skip.
  - by apply bump_other.
Qed.

Lemma loop_miss (l : list ChatUser.t) (r : Redis.store) k :
  List.filter (hits message k) l = [] → foldl bump r l !! k = r !! k.
Proof.
  intros Hnil. apply loop_other, Forall_forall. intros cu Hcu.
  destruct (decide (ChatUser.UserID cu = Message.SenderID message)) as [|Hs];
    [by left | right].
  intros Hk.
  assert (Hin : cu ∈ List.filter (hits message k) l).
  { apply list_elem_of_In, filter_In. split; [by apply list_elem_of_In|].
    unfold hits. by rewrite !bool_decide_eq_true_2. }
  rewrite Hnil in Hin. by apply elem_of_nil in Hin.
Qed.

(** A loop in which one row only hits the key increments it once. *)
Lemma loop_once (l : list ChatUser.t) (r : Redis.store) k :
  length (List.filter (hits message k) l) = 1%nat →
  foldl bump r l !! k
  = Some (Redis.mk (Redis.incremented now k r) (Some (now + unread_ttl))).
Proof.
  revert r. induction l as [|x l IH]; intros r Hone; cbn [foldl]; [done|].
  cbn [List.filter] in Hone. destruct (hits message k x) eqn:Hx.
  - cbn [length] in Hone.
    apply andb_prop in Hx as [Hs Hk].
    apply bool_decide_eq_true_1 in Hs. apply bool_decide_eq_true_1 in Hk.
    rewrite loop_miss.
    + subst k. by apply bump_at.
    + destruct (List.filter _ l); [done | discriminate].
  - rewrite IH by done. do 2 f_equal. apply incremented_ext.
    apply andb_false_iff in Hx as [Hx|Hx].
    + apply bool_decide_eq_false_1 in Hx. unfold bump.
      rewrite bump_skip; [done|].
      by destruct (decide (ChatUser.UserID x = Message.SenderID message)).
    + apply bool_decide_eq_false_1 in Hx. by apply bump_other.
Qed.

End Delivery.

(** ** Delivery and acknowledgement, on the environment *)

Section Service.

Implicit Types (e : Env.t) (m : Message.t) (u c : string).

(** What [processAfterSend] does when the store is up. *)
Lemma processAfterSend_up m e :
  DB.up (Env.db e) = true →
  ∃ d, ChatService.processAfterSend m e
       = (Env.mk (Env.now e) d
            (let r1 := foldl (ChatService.bump_unread (Env.now e) (Env.redis_client e) m)
                             (Env.redis e)
                             (List.filter
                                (fun cu => bool_decide (ChatUser.ChatID cu = Message.ChatID m))
                                (DB.chat_users (Env.db e))) in
             if Env.redis_client e then ChatService.clear_chat_keys (Env.now e) r1
             else r1)
            (Env.redis_client e), None)
       ∧ DB.up d = true
       ∧ DB.chat_users d = DB.chat_users (Env.db e)
       ∧ DB.messages d = DB.messages (Env.db e).
Proof.
  intros Hup. unfold ChatService.processAfterSend, DB.update_chat_summary.
  rewrite Hup. unfold DB.find_chat_users. cbn [DB.up].
  eexists. split; [reflexivity|]. done.
Qed.

Lemma processAfterSend_down m e :
  DB.up (Env.db e) = false →
  ChatService.processAfterSend m e = (e, Some ChatService.err_update).
Proof.
  intros Hup. unfold ChatService.processAfterSend, DB.update_chat_summary.
  by rewrite Hup.
Qed.

Lemma MarkAsRead_up c u e :
  DB.up (Env.db e) = true →
  ∃ d, ChatService.MarkAsRead c u e
       = (Env.mk (Env.now e) d
            (if Env.redis_client e then Redis.Del (unread_key u c) (Env.redis e)
             else Env.redis e)
            (Env.redis_client e), None)
       ∧ DB.up d = true
       ∧ DB.chat_users d = DB.chat_users (Env.db e)
       ∧ DB.messages d = List.map (DB.read_by c u) (DB.messages (Env.db e)).
Proof.
  intros Hup. unfold ChatService.MarkAsRead, DB.mark_read. rewrite Hup.
  unfold Env.set_redis, Env.set_db. cbn [Env.now Env.db Env.redis Env.redis_client].
  eexists. split; [destruct (Env.redis_client e); reflexivity | done].
Qed.

Lemma MarkAsRead_down c u e :
  DB.up (Env.db e) = false →
  ChatService.MarkAsRead c u e = (e, Some ChatService.err_mark).
Proof. intros Hup. unfold ChatService.MarkAsRead, DB.mark_read. by rewrite Hup. Qed.

(** The rows that hit the key of [(u, c)] are the membership rows of [u]
    in [c], when the message counts for [u]; there is none when it does
    not. *)
Lemma hits_member m u c (d : DB.t) :
  users_wf d → no_colon u = true → Counter.counts u c m = true →
  List.filter (hits m (unread_key u c))
              (List.filter (fun cu => bool_decide (ChatUser.ChatID cu = Message.ChatID m))
                           (DB.chat_users d))
  = List.filter (fun cu => bool_decide (ChatUser.ChatID cu = c)
                           && bool_decide (ChatUser.UserID cu = u))
                (DB.chat_users d).
Proof.
  intros Hwf Hu Hc. apply andb_prop in Hc as [Hc Hs].
  apply bool_decide_eq_true_1 in Hc. apply bool_decide_eq_true_1 in Hs.
  subst c.
  unfold users_wf in Hwf. induction Hwf as [|x l Hx Hl IH]; [done|].
  cbn [List.filter].
  destruct (bool_decide (ChatUser.ChatID x = Message.ChatID m)) eqn:Hxc;
    cbn [andb]; [|exact IH].
  cbn [List.filter]. rewrite IH. unfold hits at 1.
  destruct (decide (ChatUser.UserID x = u)) as [Heq|Hne].
  - apply bool_decide_eq_true_1 in Hxc.
    rewrite (bool_decide_eq_true_2 (ChatUser.UserID x ≠ _)) by by rewrite Heq.
    rewrite (bool_decide_eq_true_2 (unread_key _ _ = _)) by by rewrite Heq.
    by rewrite (bool_decide_eq_true_2 (ChatUser.UserID x = _)).
  - rewrite (bool_decide_eq_false_2 (ChatUser.UserID x = u)) by done.
    rewrite (bool_decide_eq_false_2 (unread_key u _ = _)); [by rewrite andb_false_r|].
    intros Hk. apply unread_key_inj in Hk as [? ?]; done.
Qed.

Lemma hits_none m u c (l : list ChatUser.t) :
  Forall (fun cu => no_colon (ChatUser.UserID cu) = true) l →
  no_colon u = true → Counter.counts u c m = false →
  List.filter (hits m (unread_key u c))
              (List.filter (fun cu => bool_decide (ChatUser.ChatID cu = Message.ChatID m)) l)
  = [].
Proof.
  intros Hwf Hu Hc. induction Hwf as [|x l Hx Hl IH]; [done|].
  cbn [List.filter]. destruct (bool_decide (ChatUser.ChatID x = _)); [|exact IH].
  cbn [List.filter]. rewrite IH.
  destruct (hits m (unread_key u c) x) eqn:Hh; [|done].
  apply andb_prop in Hh as [Hs Hk].
  apply bool_decide_eq_true_1 in Hs. apply bool_decide_eq_true_1 in Hk.
  apply unread_key_inj in Hk as [-> ->]; [|done..].
  unfold Counter.counts in Hc. by rewrite !bool_decide_eq_true_2 in Hc.
Qed.

(** The key of [(u, c)] across a delivery. *)
Lemma deliver_key m u c e :
  Env.redis_client e = true → DB.up (Env.db e) = true →
  users_wf (Env.db e) → member_once u c (Env.db e) → no_colon u = true →
  Env.redis (fst (ChatService.processAfterSend m e)) !! unread_key u c
  = if Counter.counts u c m
    then Some (Redis.mk (Redis.incremented (Env.now e) (unread_key u c) (Env.redis e))
                        (Some (Env.now e + unread_ttl)))
    else Env.redis e !! unread_key u c.
Proof.
  intros Hcl Hup Hwf Hone Hu.
  destruct (processAfterSend_up m e Hup) as (d & -> & _). cbn [fst Env.redis].
  rewrite Hcl. rewrite clear_chat_keys_other by apply unread_key_not_chat.
  destruct (Counter.counts u c m) eqn:Hc.
  - apply loop_once. by rewrite hits_member.
  - apply loop_miss. by apply hits_none.
Qed.

Lemma read_key c u c' u' e :
  Env.redis_client e = true → DB.up (Env.db e) = true →
  no_colon u = true → no_colon u' = true →
  Env.redis (fst (ChatService.MarkAsRead c' u' e)) !! unread_key u c
  = if bool_decide (u' = u) && bool_decide (c' = c) then None
    else Env.redis e !! unread_key u c.
Proof.
  intros Hcl Hup Hu Hu'.
  destruct (MarkAsRead_up c' u' e Hup) as (d & -> & _). cbn [fst Env.redis].
  rewrite Hcl. unfold Redis.Del.
  destruct (decide (u' = u)) as [->|Hne].
  - destruct (decide (c' = c)) as [->|Hne].
    + rewrite !bool_decide_eq_true_2 by done. apply lookup_delete_eq.
    + rewrite (bool_decide_eq_false_2 (c' = c)) by done. rewrite andb_false_r.
      apply lookup_delete_ne. intros Hk. by apply unread_key_inj in Hk as [? ?].
  - rewrite (bool_decide_eq_false_2 (u' = u)) by done. cbn [andb].
    apply lookup_delete_ne. intros Hk. by apply unread_key_inj in Hk as [? ?].
Qed.

End Service.

(** ** The unread counter along a history *)

Section History.

Variables (u c : string).

Lemma unread_ttl_pos : 0 < unread_ttl.
Proof. reflexivity. Qed.

Lemma settled_step (e : Env.t) (ev : Trace.event) :
  settled u c e → settled u c (Trace.step e ev).
Proof.
  intros (Hcl & Hup & Hwf & Hone & Hu). destruct ev as [m|u' c'|dt]; cbn [Trace.step].
  - destruct (processAfterSend_up m e Hup) as (d & -> & Hd & Hcu & _).
    unfold settled, users_wf, member_once in *. cbn. by rewrite Hcu.
  - destruct (MarkAsRead_up c' u' e Hup) as (d & -> & Hd & Hcu & _).
    unfold settled, users_wf, member_once in *. cbn. by rewrite Hcu.
  - done.
Qed.

Lemma now_step (e : Env.t) (ev : Trace.event) :
  DB.up (Env.db e) = true →
  Env.now (Trace.step e ev)
  = Env.now e + match ev with Trace.Tick dt => Z.of_N dt | _ => 0 end.
Proof.
  intros Hup. destruct ev as [m|u' c'|dt]; cbn [Trace.step].
  - destruct (processAfterSend_up m e Hup) as (d & -> & _). cbn. lia.
  - destruct (MarkAsRead_up c' u' e Hup) as (d & -> & _). cbn. lia.
  - done.
Qed.

Lemma tracks_step (K : Z) (e : Env.t) (a : Counter.t) (ev : Trace.event) :
  settled u c e → Trace.wf ev = true → K < Redis.max_int64 →
  tracks u c K e a →
  tracks u c (K + 1) (Trace.step e ev) (Counter.step u c a ev).
Proof.
  intros Hs Hwf HK (Hidle & Hcount & Hkey).
  pose proof (now_step e ev (proj1 (proj2 Hs))) as Hnow.
  destruct Hs as (Hcl & Hup & Husers & Hone & Hu).
  pose proof unread_ttl_pos as Httl.
  unfold tracks. rewrite Hnow. clear Hnow.
  destruct ev as [m|u' c'|dt]; cbn [Trace.step Counter.step].
  - rewrite deliver_key by done.
    destruct (Counter.counts u c m); cbn [Counter.idle Counter.count].
    + unfold Counter.reading, Redis.incremented, Redis.lookup, Redis.live.
      destruct (Env.redis e !! unread_key u c) as [[v x]|]; cbn in *.
      * destruct Hkey as (-> & -> & Hpos).
        destruct (unread_ttl <=? Counter.idle a) eqn:Hl.
        -- apply Z.leb_le in Hl.
           rewrite (proj2 (Z.ltb_ge _ _)) by lia.
           repeat split; try lia. f_equal. lia.
        -- apply Z.leb_gt in Hl.
           rewrite (proj2 (Z.ltb_lt _ _)) by lia. cbn.
           rewrite (proj2 (Z.ltb_lt _ _)) by lia.
           repeat split; try lia. f_equal. lia.
      * rewrite Hkey. destruct (unread_ttl <=? Counter.idle a);
          repeat split; try lia; f_equal; lia.
    + destruct (Env.redis e !! unread_key u c) as [[v x]|]; cbn in *.
      * destruct Hkey as (-> & -> & Hpos).
        repeat split; try lia. f_equal. lia.
      * repeat split; lia.
  - rewrite read_key by done.
    destruct (bool_decide (u' = u) && bool_decide (c' = c));
      cbn [Counter.idle Counter.count].
    + repeat split; lia.
    + destruct (Env.redis e !! unread_key u c) as [[v x]|]; cbn in *.
      * destruct Hkey as (-> & -> & Hpos).
        repeat split; try lia. f_equal. lia.
      * repeat split; lia.
  - cbn [Env.tick Env.redis Counter.idle Counter.count].
    destruct (Env.redis e !! unread_key u c) as [[v x]|]; cbn in *.
    + destruct Hkey as (-> & -> & Hpos).
      repeat split; try lia. f_equal. lia.
    + repeat split; lia.
Qed.

Lemma settled_run (tr : list Trace.event) (e : Env.t) :
  settled u c e → settled u c (Trace.run tr e).
Proof.
  revert e. induction tr as [|ev tr IH]; intros e Hs; [done|].
  apply IH. by apply settled_step.
Qed.

Lemma tracks_run (tr : list Trace.event) (K : Z) (e : Env.t) (a : Counter.t) :
  settled u c e → Forall (fun ev => Trace.wf ev = true) tr →
  K + Z.of_nat (length tr) ≤ Redis.max_int64 →
  tracks u c K e a →
  tracks u c (K + Z.of_nat (length tr)) (Trace.run tr e)
         (foldl (Counter.step u c) a tr).
Proof.
  revert K e a. induction tr as [|ev tr IH]; intros K e a Hs Hwf HK Ht.
  - cbn. by rewrite Z.add_0_r.
  - apply Forall_cons in Hwf as [Hev Hwf]. cbn [length] in *.
    replace (K + Z.of_nat (S (length tr))) with (K + 1 + Z.of_nat (length tr)) by lia.
    apply IH; [by apply settled_step | done | lia |].
    apply tracks_step; [done | done | lia | done].
Qed.

(** What is read when the key tracks the counter. *)
Lemma tracks_unread (K : Z) (e : Env.t) (a : Counter.t) :
  Env.redis_client e = true → K ≤ Redis.max_int64 → tracks u c K e a →
  unread u c e = Some (Counter.reading a).
Proof.
  intros Hcl HK (Hidle & Hcount & Hkey). rewrite unread_read by done. f_equal.
  pose proof unread_ttl_pos as Httl.
  unfold Redis.GetInt64, Redis.lookup, Redis.live, Counter.reading.
  destruct (Env.redis e !! unread_key u c) as [[v x]|]; cbn in *.
  - destruct Hkey as (-> & -> & Hpos).
    destruct (unread_ttl <=? Counter.idle a) eqn:Hl.
    + apply Z.leb_le in Hl. by rewrite (proj2 (Z.ltb_ge _ _)) by lia.
    + apply Z.leb_gt in Hl. rewrite (proj2 (Z.ltb_lt _ _)) by lia. cbn.
      rewrite (proj2 (Z.leb_le _ _)) by (unfold Redis.min_int64; lia).
      by rewrite (proj2 (Z.leb_le _ _)) by lia.
  - rewrite Hkey. by destruct (unread_ttl <=? Counter.idle a).
Qed.

Lemma reading_nonneg (a : Counter.t) : 0 ≤ Counter.count a → 0 ≤ Counter.reading a.
Proof. intros H. unfold Counter.reading. destruct (_ <=? _); lia. Qed.

Lemma elapsed_mono (tr : list Trace.event) (z : Z) :
  z ≤ foldl (fun acc ev => match ev with Trace.Tick dt => acc + Z.of_N dt | _ => acc end)
            z tr.
Proof.
  revert z. induction tr as [|ev tr IH]; intros z; cbn [foldl]; [lia|].
  etransitivity; [|apply IH]. destruct ev; lia.
Qed.

(** Short of an expiry the counter of the specification is the plain
    count since the last acknowledgement. *)
Lemma reading_since_reset (tr : list Trace.event) (a : Counter.t) (z : Z) :
  0 ≤ Counter.idle a ≤ z →
  foldl (fun acc ev => match ev with Trace.Tick dt => acc + Z.of_N dt | _ => acc end)
        z tr < unread_ttl →
  Counter.reading (foldl (Counter.step u c) a tr)
  = foldl (Counter.since_reset_step u c) (Counter.count a) tr.
Proof.
  revert a z. induction tr as [|ev tr IH]; intros a z Hidle Hlt; cbn [foldl] in *.
  - unfold Counter.reading. by rewrite (proj2 (Z.leb_gt _ _)) by lia.
  - pose proof (elapsed_mono tr
      (match ev with Trace.Tick dt => z + Z.of_N dt | _ => z end)) as Hm.
    assert (Hr : Counter.reading a = Counter.count a).
    { unfold Counter.reading. rewrite (proj2 (Z.leb_gt _ _)); [done|].
      destruct ev; lia. }
    destruct ev as [m|u' c'|dt]; cbn [Counter.step Counter.since_reset_step].
    + destruct (Counter.counts u c m).
      * erewrite IH; [by rewrite Hr | | exact Hlt]. cbn. lia.
      * by eapply IH.
    + destruct (_ && _).
      * erewrite IH; [done | | exact Hlt]. cbn. lia.
      * by eapply IH.
    + erewrite IH; [done | | exact Hlt]. cbn. lia.
Qed.

End History.

(** C1 (as amended).  With Redis configured, the store up, ids free of
    [':'], the id of [u] free also of the glob characters [*], [?], [[]
    and the backslash (the pattern of [GetUnreadCount] then matches the
    keys of [u] only), and [u] holding one membership row of [c]: after
    any history of
    deliveries, acknowledgements and clock steps that starts without a
    counter for [(u, c)], the counter [GetUnreadCount u] reports for [c] is
    the number of messages of [c] not sent by [u] that were delivered since
    the last [MarkAsRead] of [(u, c)] or the last expiry of the counter,
    whichever came later, the counter expiring once [unread_ttl] (7 days)
    pass without an increment.  It is never negative; as long as less than
    7 days pass in all it is the plain count since the last
    acknowledgement; and every further delivery raises it by exactly one
    for a message that counts for [u], and leaves it as it is otherwise. *)
Theorem unread_counts_since_reset_or_expiry
        (e0 : Env.t) (u c : string) (tr : list Trace.event) :
  settled u c e0 →
  no_glob u = true →
  Forall (fun ev => Trace.wf ev = true) tr →
  Env.redis e0 !! unread_key u c = None →
  Z.of_nat (length tr) < Redis.max_int64 →
  unread u c (Trace.run tr e0) = Some (Counter.reading (Counter.run u c tr))
  ∧ 0 ≤ Counter.reading (Counter.run u c tr)
  ∧ (Trace.elapsed tr < unread_ttl →
     unread u c (Trace.run tr e0) = Some (Counter.since_reset u c tr))
  ∧ ∀ m, unread u c (Trace.run (tr ++ [Trace.Deliver m]) e0)
         = Some (Counter.reading (Counter.run u c tr)
                 + if Counter.counts u c m then 1 else 0).
Proof.
  intros Hs _ Hwf Hkey Hlen.
  assert (Ht0 : tracks u c 0 e0 (Counter.mk 0 0)).
  { unfold tracks. rewrite Hkey. cbn. lia. }
  pose proof (tracks_run u c tr 0 e0 _ Hs Hwf ltac:(lia) Ht0) as Ht.
  rewrite Z.add_0_l in Ht. fold (Counter.run u c tr) in Ht.
  pose proof (settled_run u c tr e0 Hs) as Hs'.
  assert (Hread : unread u c (Trace.run tr e0)
                  = Some (Counter.reading (Counter.run u c tr))).
  { eapply tracks_unread; [apply Hs' | | exact Ht]. lia. }
  split; [exact Hread|]. split.
  { apply reading_nonneg. destruct Ht as (_ & ? & _). lia. }
  split.
  { intros Hel. rewrite Hread. f_equal.
    unfold Counter.run, Counter.since_reset.
    by apply (reading_since_reset u c tr (Counter.mk 0 0) 0). }
  intros m. unfold Trace.run. rewrite foldl_snoc. fold (Trace.run tr e0).
  pose proof (tracks_step u c _ _ _ (Trace.Deliver m) Hs' eq_refl Hlen Ht) as Ht'.
  erewrite tracks_unread; [| | | exact Ht'].
  - f_equal. cbn [Counter.step]. destruct (Counter.counts u c m); [|lia].
    unfold Counter.reading at 1. cbn [Counter.idle Counter.count].
    change (unread_ttl <=? 0) with false. cbn iota. lia.
  - destruct (settled_step u c _ (Trace.Deliver m) Hs') as (? & _). done.
  - lia.
Qed.

Lemma settled_scenario : settled Scenario.bob Scenario.c1 Scenario.e0.
Proof.
  unfold settled, users_wf, member_once.
  repeat split; try reflexivity. repeat constructor.
Defined.

Lemma unread_counts_witness :
  unread Scenario.bob Scenario.c1 (Trace.run Scenario.history Scenario.e0)
  = Some (Counter.reading (Counter.run Scenario.bob Scenario.c1 Scenario.history))
  ∧ Counter.reading (Counter.run Scenario.bob Scenario.c1 Scenario.history) = 1.
Proof.
  split; [|reflexivity].
  refine (proj1 (unread_counts_since_reset_or_expiry
                   Scenario.e0 Scenario.bob Scenario.c1 Scenario.history
                   settled_scenario _ _ _ _)).
  - reflexivity.
  - repeat constructor.
  - reflexivity.
  - reflexivity.
Defined.

(** C1 (as stated) fails: bob, whose id is an ordinary one, is a
    participant of [c1], one message of alice is delivered to it and no
    acknowledgement follows, yet seven days later the counter reads 0,
    not 1. *)
Lemma unread_lost_after_a_week :
  settled Scenario.bob Scenario.c1 Scenario.e0
  ∧ no_glob Scenario.bob = true
  ∧ Counter.since_reset Scenario.bob Scenario.c1 Scenario.idle_week = 1
  ∧ unread Scenario.bob Scenario.c1 (Trace.run Scenario.idle_week Scenario.e0)
    = Some 0.
Proof.
  split; [exact settled_scenario|]. repeat split; vm_compute; reflexivity.
Qed.

(** ** The expiry of a counter *)




(** ** Acknowledgement *)




(** ** Sending *)

Section Sending.

Implicit Types (cs : ChatService.t) (e : Env.t) (st : ChatController.state).

Lemma generateUUID_nonempty (n : nat) : DB.generateUUID n ≠ "".
Proof. discriminate. Qed.

Lemma first_chat_user_up chatID userID (d : DB.t) cu :
  DB.first_chat_user chatID userID d = Some cu → DB.up d = true.
Proof. unfold DB.first_chat_user. by destruct (DB.up d). Qed.

Lemma first_chat_user_none chatID userID (d : DB.t) :
  ¬ participant chatID userID d → DB.first_chat_user chatID userID d = None.
Proof.
  intros Hnp. unfold DB.first_chat_user. destruct (DB.up d); [|done].
  destruct (List.find _ _) as [cu|] eqn:Hf; [|done].
  apply List.find_some in Hf as [Hin Hb]. apply andb_prop in Hb as [Hc Hu].
  apply bool_decide_eq_true_1 in Hc. apply bool_decide_eq_true_1 in Hu.
  exfalso. apply Hnp. exists cu. by apply list_elem_of_In in Hin.
Qed.

(** What [processMessageDirect] does when the store is up: the message
    is persisted with a fresh id and the time of creation, then handed
    to the processing queue if it has room. *)
Lemma processMessageDirect_up (task : ChatService.MessageTask) cs e :
  DB.up (Env.db e) = true →
  ∃ m d,
    DB.create_message (ChatService.message_of task) (Env.now e) (Env.db e)
    = Some (m, d)
    ∧ Message.ID m = DB.generateUUID (DB.entropy (Env.db e))
    ∧ Message.ChatID m = ChatService.ChatID task
    ∧ Message.SenderID m = ChatService.UserID task
    ∧ Message.Content m = ChatService.Content task
    ∧ Message.CreatedAt m = Env.now e
    ∧ DB.messages d = DB.messages (Env.db e) ++ [m]
    ∧ ChatService.processMessageDirect task (cs, e)
      = if (length (ChatService.processQueue cs) <? ChatService.processQueue_cap)%nat
        then ((ChatService.set_processQueue (ChatService.processQueue cs ++ [m]) cs,
               Env.set_db d e), Ok m)
        else ((cs, Env.set_db d e), Blocked).
Proof.
  intros Hup. unfold ChatService.processMessageDirect, DB.create_message.
  rewrite Hup. cbn. eexists _, _. repeat split.
Qed.

Lemma processMessageDirect_down (task : ChatService.MessageTask) cs e :
  DB.up (Env.db e) = false →
  ChatService.processMessageDirect task (cs, e)
  = ((cs, e), Err ChatService.err_create).
Proof.
  intros Hup. unfold ChatService.processMessageDirect, DB.create_message.
  by rewrite Hup.
Qed.


(** The deliveries of [processMessage] leave the relational store and
    the queue of the controller alone. *)
Lemma sendMessageToUser_db userID (m : Message.t) st :
  Env.db (ChatController.env (ChatController.sendMessageToUser userID m st))
  = Env.db (ChatController.env st)
  ∧ ChatController.messageQueue
      (ChatController.cc (ChatController.sendMessageToUser userID m st))
    = ChatController.messageQueue (ChatController.cc st).
Proof.
  unfold ChatController.sendMessageToUser.
  by destruct (ChatController.clients (ChatController.cc st) !! userID).
Qed.

Lemma deliveries_db (sender : string) (m : Message.t)
      (l : list ChatUser.t) st :
  let st' := foldl (fun acc chatUser =>
                      if bool_decide (ChatUser.UserID chatUser ≠ sender)
                      then ChatController.sendMessageToUser
                             (ChatUser.UserID chatUser) m acc
                      else acc) st l in
  Env.db (ChatController.env st') = Env.db (ChatController.env st)
  ∧ ChatController.messageQueue (ChatController.cc st')
    = ChatController.messageQueue (ChatController.cc st).
Proof.
  revert st. induction l as [|x l IH]; intros st; cbn [foldl]; [done|].
  destruct (IH (if bool_decide (ChatUser.UserID x ≠ sender)
                then ChatController.sendMessageToUser (ChatUser.UserID x) m st
                else st)) as [-> ->].
  case_bool_decide; [apply sendMessageToUser_db | done].
Qed.

Lemma create_message_up (m : Message.t) (at_ : Z) (d : DB.t) :
  DB.up d = true → Message.ID m = "" →
  DB.create_message m at_ d
  = let m' := Message.mk (DB.generateUUID (DB.entropy d)) (Message.ChatID m)
                         (Message.SenderID m) (Message.Content m)
                         (Message.IsRead m) at_ in
    Some (m', DB.mk true (S (DB.entropy d)) (DB.messages d ++ [m'])
                    (DB.chat_users d)
                    (List.map (DB.touch_chat (Message.ChatID m) (Message.Content m) at_)
                              (DB.chats d))).
Proof.
  intros Hup Hid. unfold DB.create_message. rewrite Hup, Hid.
  by rewrite bool_decide_eq_true_2.
Qed.

Lemma processMessage_up (task : ChatController.MessageTask) st :
  DB.up (Env.db (ChatController.env st)) = true →
  ∃ m, snd (ChatController.processMessage task st) = None
       ∧ DB.messages (Env.db (ChatController.env
                                (fst (ChatController.processMessage task st))))
         = DB.messages (Env.db (ChatController.env st)) ++ [m]
       ∧ Message.ID m ≠ ""
       ∧ Message.ChatID m = ChatController.ChatID task
       ∧ Message.SenderID m = ChatController.UserID task
       ∧ Message.Content m = ChatController.Content task
       ∧ ChatController.messageQueue
           (ChatController.cc (fst (ChatController.processMessage task st)))
         = ChatController.messageQueue (ChatController.cc st).
Proof.
  intros Hup. unfold ChatController.processMessage.
  rewrite create_message_up by done. cbn zeta.
  cbn [Message.ChatID Message.SenderID Message.Content Message.IsRead fst snd].
  set (m := Message.mk _ _ _ _ _ _).
  set (st1 := ChatController.set_env _ st).
  set (l := default [] _).
  destruct (deliveries_db (ChatController.UserID task) m l st1) as [Hdb Hq].
  cbn zeta in Hdb, Hq. exists m. rewrite Hdb, Hq.
  repeat split; done.
Qed.

End Sending.



(** C3 (as stated) fails: alice is a participant of [c1] and the queue is
    empty; her send is acknowledged with a message that has no id, and the
    [messages] table is as empty as before. *)
Lemma acknowledged_before_persisted :
  let r := ChatService.SendMessage Scenario.c1 Scenario.alice "hello"
                                   (ChatService.NewChatService, Scenario.e0) in
  (∃ m, snd r = Ok m ∧ Message.ID m = "" ∧ ¬ persisted m (snd (fst r)))
  ∧ DB.messages (Env.db (snd (fst r))) = [].
Proof.
  split; [|reflexivity].
  exists (Message.mk "" Scenario.c1 Scenario.alice "hello" false 0).
  split; [reflexivity|]. split; [reflexivity|].
  unfold persisted. cbn. apply not_elem_of_nil.
Qed.

(** C3 (as amended).  [SendMessage] acknowledges a send in one of two
    ways.  With room on the ingestion queue it returns as soon as the task
    is queued: nothing is persisted yet, the store is as it was, and the
    message returned names the chat, the sender and the content of the
    request.  With the queue full it returns once the message is
    persisted: the message returned is the new row, with its id and its
    time of creation assigned, and it is on the processing queue.  Either
    way the answer is settled before any delivery: it is the same whatever
    the Redis store holds and whether or not Redis is configured. *)
Theorem acknowledged_once_queued_or_persisted
        (chatID userID content : string) (cs cs' : ChatService.t)
        (e e' : Env.t) (m : Message.t) :
  ChatService.SendMessage chatID userID content (cs, e) = ((cs', e'), Ok m) →
  Message.ChatID m = chatID ∧ Message.SenderID m = userID
  ∧ Message.Content m = content
  ∧ (((length (ChatService.messageQueue cs) < ChatService.messageQueue_cap)%nat
      ∧ ChatService.messageQueue cs'
        = ChatService.messageQueue cs
          ++ [ChatService.mkTask chatID userID content (Env.now e)]
      ∧ ChatService.processQueue cs' = ChatService.processQueue cs
      ∧ e' = e)
     ∨ ((ChatService.messageQueue_cap ≤ length (ChatService.messageQueue cs))%nat
        ∧ ChatService.messageQueue cs' = ChatService.messageQueue cs
        ∧ DB.messages (Env.db e') = DB.messages (Env.db e) ++ [m]
        ∧ Message.ID m ≠ ""
        ∧ Message.CreatedAt m = Env.now e
        ∧ ChatService.processQueue cs' = ChatService.processQueue cs ++ [m]))
  ∧ ∀ (r : Redis.store) (b : bool),
      snd (ChatService.SendMessage chatID userID content
             (cs, Env.mk (Env.now e) (Env.db e) r b)) = Ok m.
Proof.
  intros H.
  assert (Hshape : ∀ (r : Redis.store) (b : bool),
             snd (ChatService.SendMessage chatID userID content
                    (cs, Env.mk (Env.now e) (Env.db e) r b))
             = snd (ChatService.SendMessage chatID userID content (cs, e))).
  { intros r b. unfold ChatService.SendMessage, ChatService.processMessageDirect.
    cbn [Env.db Env.now].
    repeat (case_match; try done). }
  assert (Hmain :
    Message.ChatID m = chatID ∧ Message.SenderID m = userID
    ∧ Message.Content m = content
    ∧ (((length (ChatService.messageQueue cs) < ChatService.messageQueue_cap)%nat
        ∧ ChatService.messageQueue cs'
          = ChatService.messageQueue cs
            ++ [ChatService.mkTask chatID userID content (Env.now e)]
        ∧ ChatService.processQueue cs' = ChatService.processQueue cs
        ∧ e' = e)
       ∨ ((ChatService.messageQueue_cap ≤ length (ChatService.messageQueue cs))%nat
          ∧ ChatService.messageQueue cs' = ChatService.messageQueue cs
          ∧ DB.messages (Env.db e') = DB.messages (Env.db e) ++ [m]
          ∧ Message.ID m ≠ ""
          ∧ Message.CreatedAt m = Env.now e
          ∧ ChatService.processQueue cs' = ChatService.processQueue cs ++ [m]))).
  { revert H. unfold ChatService.SendMessage.
    case_bool_decide as Hne; [done|].
    destruct (1000 <? String.length content)%nat; [done|].
    destruct (DB.first_chat_user chatID userID (Env.db e)) as [cu|] eqn:Hcu; [|done].
    destruct (length (ChatService.messageQueue cs) <? ChatService.messageQueue_cap)%nat
      eqn:Hq.
    - intros [= <- <- <-]. apply Nat.ltb_lt in Hq.
      repeat split. left. done.
    - apply Nat.ltb_ge in Hq.
      pose proof (first_chat_user_up _ _ _ _ Hcu) as Hup.
      destruct (processMessageDirect_up
                  (ChatService.mkTask chatID userID content (Env.now e)) cs e Hup)
        as (m' & d & _ & Hid & Hc & Hs & Hco & Hat & Hmsgs & ->).
      destruct (_ <? _)%nat; [|done].
      intros [= <- <- <-]. cbn in Hc, Hs, Hco.
      split; [done|]. split; [done|]. split; [done|]. right. cbn.
      repeat split; try done. rewrite Hid. apply generateUUID_nonempty. }
  destruct Hmain as (Hc & Hs & Hco & Hcases).
  split; [done|]. split; [done|]. split; [done|]. split; [done|].
  intros r b. by rewrite Hshape, H.
Qed.

Lemma acknowledged_witness :
  Message.Content (Message.mk "" Scenario.c1 Scenario.alice "hello" false 0)
  = "hello"
  ∧ snd (ChatService.SendMessage Scenario.c1 Scenario.alice "hello"
           (ChatService.NewChatService, Env.mk 0 Scenario.db0 ∅ false))
    = Ok (Message.mk "" Scenario.c1 Scenario.alice "hello" false 0).
Proof.
  pose proof (acknowledged_once_queued_or_persisted
                Scenario.c1 Scenario.alice "hello"
                ChatService.NewChatService
                (ChatService.mk [ChatService.mkTask Scenario.c1 Scenario.alice "hello" 0] [] ∅)
                Scenario.e0 Scenario.e0
                (Message.mk "" Scenario.c1 Scenario.alice "hello" false 0)
                eq_refl) as (_ & _ & Hco & _ & Hredis).
  split; [exact Hco | exact (Hredis ∅ false)].
Defined.

(** ** Validation and permission *)

(** A rune takes at least one byte. *)
Lemma RuneCount_le_length (s : string) :
  (GoString.RuneCountInString s ≤ String.length s)%nat.
Proof.
  remember (String.length s) as n eqn:Hn.
  assert (Hle : (String.length s ≤ n)%nat) by lia. clear Hn.
  revert s Hle. induction n as [|n IH]; intros s Hle.
  - destruct s; [cbn; lia | cbn in Hle; lia].
  - destruct s as [|c0 s1]; [cbn; lia|].
    cbn [String.length] in Hle.
    assert (H1 : (GoString.RuneCountInString s1 ≤ n)%nat).
    { etransitivity; [apply IH|]; lia. }
    cbn [GoString.RuneCountInString].
    destruct (GoString.first c0) as [size [lo hi]].
    destruct size as [|[|[|[|[|size]]]]]; try lia.
    + destruct s1 as [|c1 s2]; [lia|].
      cbn [String.length] in Hle.
      destruct (GoString.between lo hi c1); [|lia].
      assert (H2 := IH s2 ltac:(lia)). lia.
    + destruct s1 as [|c1 [|c2 s3]]; try lia.
      cbn [String.length] in Hle.
      destruct (_ && _); [|lia].
      assert (H3 := IH s3 ltac:(lia)). lia.
    + destruct s1 as [|c1 [|c2 [|c3 s4]]]; try lia.
      cbn [String.length] in Hle.
      destruct (_ && _); [|lia].
      assert (H4 := IH s4 ltac:(lia)). lia.
Qed.

(** The half of C4 the code keeps: content that is empty or longer than
    1000 code points is turned down by the service and by the controller,
    and nothing changes. *)
Lemma invalid_content_rejected (chatID userID content : string)
      (cs : ChatService.t) (e : Env.t) (st : ChatController.state) :
  content = "" ∨ (1000 < GoString.RuneCountInString content)%nat →
  (∃ msg, ChatService.SendMessage chatID userID content (cs, e) = ((cs, e), Err msg)
          ∧ (msg = ChatService.err_empty ∨ msg = ChatService.err_too_long))
  ∧ ∃ b, ChatController.SendMessage userID chatID content st = (st, (400, b)).
Proof.
  intros H. split.
  - unfold ChatService.SendMessage. case_bool_decide; [eauto|].
    destruct H as [?|H]; [done|].
    pose proof (RuneCount_le_length content).
    rewrite (proj2 (Nat.ltb_lt _ _)) by lia. eauto.
  - unfold ChatController.SendMessage.
    destruct H as [->|H].
    + rewrite bool_decide_eq_true_2 by done. eauto.
    + rewrite (proj2 (Nat.ltb_lt _ _)) by lia. rewrite orb_true_r. eauto.
Qed.

(** C4, where the code departs from it: [long_text] is 334 code points
    long, well within the bound of 1000, and alice is a participant of
    [c1]; the controller accepts the message, the service turns it down as
    too long, for it counts the 1002 bytes. *)
Lemma service_counts_bytes :
  GoString.RuneCountInString Scenario.long_text = 334%nat
  ∧ String.length Scenario.long_text = 1002%nat
  ∧ ChatService.SendMessage Scenario.c1 Scenario.alice Scenario.long_text
                            (ChatService.NewChatService, Scenario.e0)
    = ((ChatService.NewChatService, Scenario.e0), Err ChatService.err_too_long)
  ∧ snd (ChatController.SendMessage Scenario.alice Scenario.c1 Scenario.long_text
                                    Scenario.st0)
    = (202, ChatController.BInfo "Message queued for delivery").
Proof. repeat split; vm_compute; reflexivity. Qed.

(** C5 (as stated) fails: carol is no participant of [c1]; her send of an
    empty message fails, but with the error of the validation, not with
    the one of the permission check. *)
Lemma stranger_gets_validation_error :
  ¬ participant Scenario.c1 Scenario.carol (Env.db Scenario.e0)
  ∧ snd (ChatService.SendMessage Scenario.c1 Scenario.carol ""
           (ChatService.NewChatService, Scenario.e0))
    = Err ChatService.err_empty
  ∧ ChatService.err_empty ≠ ChatService.err_send_permission
  ∧ snd (ChatController.SendMessage Scenario.carol Scenario.c1 "" Scenario.st0)
    = (400, ChatController.BError "invalid content").
Proof.
  split; [|by repeat split].
  intros (cu & Hin & _ & Hu). cbn in Hin.
  repeat (apply elem_of_cons in Hin as [->|Hin]; [discriminate Hu|]).
  by apply elem_of_nil in Hin.
Qed.

(** C5 (as amended).  A send by a user who is no participant of the chat
    fails and changes nothing: no message is persisted, no task queued, no
    counter touched.  The error is the permission error when the content
    passes validation, and the validation error when it does not.  The
    controller answers 403, respectively 400, and changes nothing either. *)
Theorem stranger_send_rejected (chatID userID content : string)
        (cs : ChatService.t) (e : Env.t) :
  ¬ participant chatID userID (Env.db e) →
  (∃ msg,
     ChatService.SendMessage chatID userID content (cs, e) = ((cs, e), Err msg)
     ∧ (content ≠ "" → (String.length content ≤ 1000)%nat →
        msg = ChatService.err_send_permission)
     ∧ (content = "" ∨ (1000 < String.length content)%nat →
        msg = ChatService.err_empty ∨ msg = ChatService.err_too_long))
  ∧ ∀ st : ChatController.state,
      ChatController.env st = e →
      ∃ code b,
        ChatController.SendMessage userID chatID content st = (st, (code, b))
        ∧ (content ≠ "" → (GoString.RuneCountInString content ≤ 1000)%nat →
           code = 403)
        ∧ (content = "" ∨ (1000 < GoString.RuneCountInString content)%nat →
           code = 400).
Proof.
  intros Hnp. apply first_chat_user_none in Hnp. split.
  - unfold ChatService.SendMessage. case_bool_decide as Hne.
    + eexists. split; [done|]. split; [done|]. auto.
    + destruct (1000 <? String.length content)%nat eqn:Hlen.
      * apply Nat.ltb_lt in Hlen. eexists. split; [done|].
        split; [lia | auto].
      * apply Nat.ltb_ge in Hlen. rewrite Hnp. eexists. split; [done|].
        split; [done|]. intros [?|?]; [done | lia].
  - intros st <-. unfold ChatController.SendMessage.
    case_bool_decide as Hne; cbn [orb].
    + eexists _, _. split; [done|]. split; [done | auto].
    + destruct (1000 <? GoString.RuneCountInString content)%nat eqn:Hlen.
      * apply Nat.ltb_lt in Hlen. eexists _, _. split; [done|].
        split; [lia | auto].
      * apply Nat.ltb_ge in Hlen. rewrite Hnp. eexists _, _. split; [done|].
        split; [done|]. intros [?|?]; [done | lia].
Qed.

Lemma stranger_not_participant :
  ¬ participant Scenario.c1 Scenario.carol (Env.db Scenario.e0).
Proof.
  intros (cu & Hin & _ & Hu). cbn in Hin.
  repeat (apply elem_of_cons in Hin as [->|Hin]; [discriminate Hu|]).
  by apply elem_of_nil in Hin.
Defined.

Lemma stranger_send_rejected_witness :
  ∃ msg,
    ChatService.SendMessage Scenario.c1 Scenario.carol "hello"
                            (ChatService.NewChatService, Scenario.e0)
    = ((ChatService.NewChatService, Scenario.e0), Err msg)
    ∧ ("hello" ≠ "" → (String.length "hello" ≤ 1000)%nat →
       msg = ChatService.err_send_permission)
    ∧ ("hello" = "" ∨ (1000 < String.length "hello")%nat →
       msg = ChatService.err_empty ∨ msg = ChatService.err_too_long).
Proof.
  exact (proj1 (stranger_send_rejected Scenario.c1 Scenario.carol "hello"
                  ChatService.NewChatService Scenario.e0
                  stranger_not_participant)).
Defined.

(** ** Reading a conversation *)

(** C9, where the code departs from it: a message of alice was delivered
    to [c1], bob has it unread, and alice has since opened the
    conversation, which cached page 1.  bob's [GetMessages] succeeds, is
    served from that cache, and changes nothing: his counter stays at 1
    and the message stays unread. *)
Lemma cached_page_marks_nothing_read :
  let e := Scenario.alice_has_read in
  let r := ChatService.GetMessages Scenario.c1 Scenario.bob 1 50 e in
  unread Scenario.bob Scenario.c1 e = Some 1
  ∧ snd r = Ok ([Message.mk "uuid-0" Scenario.c1 Scenario.alice "hello" false 0], 1)
  ∧ fst r = e
  ∧ unread Scenario.bob Scenario.c1 (fst r) = Some 1
  ∧ DB.messages (Env.db (fst r))
    = [Message.mk "uuid-0" Scenario.c1 Scenario.alice "hello" false 0].
Proof. repeat split; vm_compute; reflexivity. Qed.

(** ** The connection registry *)

Section Registry.

Implicit Types (st : ChatController.state) (n : Net.t).

(** A map lists one entry per key at most. *)
Lemma one_entry_per_key (m : gmap string nat) (u : string) :
  (length (List.filter (fun entry => bool_decide (fst entry = u)) (map_to_list m))
   ≤ 1)%nat.
Proof.
  pose proof (NoDup_fst_map_to_list m) as Hnd.
  induction (map_to_list m) as [|[k c] l IH]; cbn; [lia|].
  apply NoDup_cons in Hnd as [Hk Hnd]. specialize (IH Hnd).
  case_bool_decide as Hu; [|done]. cbn in *. subst k.
  assert (Hnil : List.filter (fun entry : string * nat => bool_decide (fst entry = u)) l = []).
  { destruct (List.filter _ l) as [|[k' c'] l'] eqn:Hf; [done|].
    assert (Hin : In (k', c') (List.filter
              (fun entry : string * nat => bool_decide (fst entry = u)) l))
      by (rewrite Hf; by left).
    apply filter_In in Hin as [Hin Hb]. apply bool_decide_eq_true_1 in Hb.
    cbn in Hb. subst k'. exfalso. apply Hk.
    apply list_elem_of_fmap. exists (u, c'). split; [done|].
    by apply list_elem_of_In. }
  rewrite Hnil. cbn. lia.
Qed.

Lemma writable_wire n conn f c :
  Net.writable c (fst (Net.write conn f n)) = Net.writable c n.
Proof. unfold Net.write. by destruct (Net.writable conn n). Qed.




Lemma online_key_inj (u u' : string) : online_key u = online_key u' → u = u'.
Proof. unfold online_key. apply app_inj_l. Qed.

End Registry.

(** C2 (as stated) fails: alice connects twice; the first connection is
    still open after the second is registered, and she holds two live
    connections. *)
Lemma second_connection_leaves_first_open :
  let st := ChatController.HandleWebSocket_open Scenario.alice 2
              (ChatController.HandleWebSocket_open Scenario.alice 1 Scenario.st0) in
  Net.open (ChatController.net st) !! 1%nat = Some Scenario.alice
  ∧ Net.open (ChatController.net st) !! 2%nat = Some Scenario.alice
  ∧ length (Net.live_connections Scenario.alice (ChatController.net st)) = 2%nat.
Proof. repeat split; vm_compute; reflexivity. Qed.

(** C2 (as amended).  The registry holds one connection per user id at
    most.  Registering a connection for a user puts it in the place of the
    one registered before, if any, and leaves the entries of the other
    users alone; it closes no connection: whatever was open before,
    the connection it supersedes included, is open after. *)
Theorem registration_supersedes_without_closing
        (st : ChatController.state) (userID : string) (conn : nat) :
  userID ≠ "" →
  let st' := ChatController.HandleWebSocket_open userID conn st in
  ChatController.clients (ChatController.cc st') !! userID = Some conn
  ∧ (∀ u, u ≠ userID →
          ChatController.clients (ChatController.cc st') !! u
          = ChatController.clients (ChatController.cc st) !! u)
  ∧ (∀ u, (length (List.filter (fun entry => bool_decide (fst entry = u))
                     (map_to_list (ChatController.clients (ChatController.cc st'))))
           ≤ 1)%nat)
  ∧ (∀ c owner, Net.open (ChatController.net st) !! c = Some owner → c ≠ conn →
                Net.open (ChatController.net st') !! c = Some owner)
  ∧ Net.open (ChatController.net st') !! conn = Some userID.
Proof.
  intros Hne st'. subst st'. unfold ChatController.HandleWebSocket_open.
  rewrite bool_decide_eq_false_2 by done. cbn.
  split; [apply lookup_insert_eq|].
  split; [intros u Hu; by apply lookup_insert_ne|].
  split; [intros u; apply one_entry_per_key|].
  split; [|apply lookup_insert_eq].
  intros c owner Hc Hcc. by rewrite lookup_insert_ne.
Qed.

Lemma registration_witness :
  ChatController.clients
    (ChatController.cc (ChatController.HandleWebSocket_open Scenario.alice 1 Scenario.st0))
  !! Scenario.alice = Some 1%nat.
Proof.
  refine (proj1 (registration_supersedes_without_closing
                   Scenario.st0 Scenario.alice 1 _)).
  discriminate.
Defined.




(** ** Reading a conversation: the cache and the store *)

Section Reading.

Implicit Types (e : Env.t) (m : Message.t).

Lemma page_key_chat (chatID : string) (page : Z) :
  String.prefix "chat:" (page_key chatID page) = true.
Proof. apply prefix_app. Qed.

Lemma page_key_not_unread (chatID u c : string) (page : Z) :
  unread_key u c ≠ page_key chatID page.
Proof.
  intros H. pose proof (page_key_chat chatID page) as Hp. rewrite <- H in Hp.
  by rewrite unread_key_not_chat in Hp.
Qed.

Lemma read_by_fields (c u : string) m :
  Message.ID (DB.read_by c u m) = Message.ID m
  ∧ Message.ChatID (DB.read_by c u m) = Message.ChatID m
  ∧ Message.SenderID (DB.read_by c u m) = Message.SenderID m
  ∧ Message.Content (DB.read_by c u m) = Message.Content m
  ∧ Message.CreatedAt (DB.read_by c u m) = Message.CreatedAt m
  ∧ (Message.IsRead m = true → Message.IsRead (DB.read_by c u m) = true)
  ∧ (Message.ChatID m = c → Message.SenderID m ≠ u →
     Message.IsRead (DB.read_by c u m) = true)
  ∧ (Message.ChatID m ≠ c ∨ Message.SenderID m = u → DB.read_by c u m = m).
Proof.
  unfold DB.read_by.
  destruct (bool_decide (Message.ChatID m = c)
            && negb (bool_decide (Message.SenderID m = u))) eqn:H.
  - apply andb_prop in H as [Hc Hs]. apply bool_decide_eq_true_1 in Hc.
    apply negb_true_iff, bool_decide_eq_false_1 in Hs.
    repeat split; try done. intros [?|?]; done.
  - repeat split; try done. intros Hc Hs.
    rewrite !bool_decide_eq_true_2 in H by done.
    rewrite bool_decide_eq_false_2 in H by done. done.
Qed.

Lemma Get_page (now : Z) (k : string) (r : Redis.store)
      (ms : list Message.t) (tot : Z) (x : option Z) :
  r !! k = Some (Redis.mk (Redis.VPage ms tot) x) →
  Redis.live now (Redis.mk (Redis.VPage ms tot) x) = true →
  Redis.Get now k r = Some (Redis.VPage ms tot).
Proof. intros Hk Hl. unfold Redis.Get. by rewrite (lookup_live _ _ _ _ Hk Hl). Qed.

(** [GetMessages] when the page is not in the cache. *)
Lemma GetMessages_miss (chatID userID : string) (page limit : Z) e cu :
  Env.redis_client e = true →
  DB.first_chat_user chatID userID (Env.db e) = Some cu →
  (∀ ms t, Redis.Get (Env.now e) (page_key chatID page) (Env.redis e)
           ≠ Some (Redis.VPage ms t)) →
  match DB.page_of_messages chatID limit (wrap64 (wrap64 (page - 1) * limit))
                            (Env.db e) with
  | None =>
    ChatService.GetMessages chatID userID page limit e
    = (e, Err ChatService.err_get)
  | Some found =>
    ∃ d,
      DB.up d = true
      ∧ DB.chat_users d = DB.chat_users (Env.db e)
      ∧ DB.messages d = List.map (DB.read_by chatID userID) (DB.messages (Env.db e))
      ∧ ChatService.GetMessages chatID userID page limit e
        = (Env.mk (Env.now e) d
             (Redis.Del (unread_key userID chatID)
                (Redis.Set_ (Env.now e) (page_key chatID page)
                   (Redis.VPage (rev found) (DB.count_messages chatID (Env.db e)))
                   (5 * minute) (Env.redis e)))
             true,
           Ok (rev found, DB.count_messages chatID (Env.db e)))
  end.
Proof.
  intros Hcl Hcu Hmiss. pose proof (first_chat_user_up _ _ _ _ Hcu) as Hup.
  unfold ChatService.GetMessages. rewrite Hcu, Hcl.
  assert (Hc : match Redis.Get (Env.now e) (page_key chatID page) (Env.redis e) with
               | Some (Redis.VPage msgs total) => Some (msgs, total)
               | _ => None
               end = None).
  { destruct (Redis.Get _ _ _) as [[n|s|s|ms t|ms]|]; try done.
    exfalso. by apply (Hmiss ms t). }
  rewrite Hc.
  destruct (DB.page_of_messages _ _ _ _) as [found|]; [|done].
  set (e1 := Env.set_redis _ e).
  destruct (MarkAsRead_up chatID userID e1 Hup) as (d & Heq & Hd & Hcus & Hmsgs).
  exists d. rewrite Heq. subst e1. cbn [fst Env.redis_client Env.set_redis
    Env.now Env.redis Env.db] in *. rewrite Hcl. done.
Qed.




End Reading.



(** X2.  Once a page was read from the store, every participant who asks
    for the same page within five minutes is served the cached page, and
    the call changes nothing: no message is marked read and no counter is
    reset for that participant. *)
Theorem GetMessages_served_from_cache
        (chatID userID userID' : string) (page limit limit' dt : Z)
        (e e' : Env.t) (result : list Message.t * Z) (cu : ChatUser.t) :
  Env.redis_client e = true →
  (∀ ms t, Redis.Get (Env.now e) (page_key chatID page) (Env.redis e)
           ≠ Some (Redis.VPage ms t)) →
  ChatService.GetMessages chatID userID page limit e = (e', Ok result) →
  DB.first_chat_user chatID userID' (Env.db e') = Some cu →
  0 ≤ dt < 5 * minute →
  ChatService.GetMessages chatID userID' page limit' (Env.tick dt e')
  = (Env.tick dt e', Ok result).
Proof.
  intros Hcl Hmiss H Hcu' Hdt.
  destruct (DB.first_chat_user chatID userID (Env.db e)) as [cu0|] eqn:Hcu.
  2:{ unfold ChatService.GetMessages in H. by rewrite Hcu in H. }
  pose proof (GetMessages_miss chatID userID page limit e cu0 Hcl Hcu Hmiss) as Hm.
  destruct (DB.page_of_messages _ _ _ _) as [found|].
  2:{ rewrite Hm in H. discriminate H. }
  destruct Hm as (d & _ & _ & _ & Heq).
  rewrite Heq in H. injection H as <- <-.
  unfold ChatService.GetMessages.
  cbn [Env.tick Env.db Env.now Env.redis Env.redis_client] in *.
  rewrite Hcu'.
  erewrite Get_page; [done | |].
  - unfold Redis.Del, Redis.Set_.
    rewrite lookup_delete_ne by apply page_key_not_unread. apply lookup_insert_eq.
  - unfold Redis.live. cbn. apply Z.ltb_lt. lia.
Qed.

Lemma GetMessages_served_from_cache_witness :
  ChatService.GetMessages Scenario.c1 Scenario.bob 1 20
                          (Env.tick 60 Scenario.alice_has_read)
  = (Env.tick 60 Scenario.alice_has_read,
     Ok ([Message.mk "uuid-0" Scenario.c1 Scenario.alice "hello" false 0], 1)).
Proof.
  refine (GetMessages_served_from_cache
            Scenario.c1 Scenario.alice Scenario.bob 1 50 20 60
            (snd Scenario.delivered) Scenario.alice_has_read
            ([Message.mk "uuid-0" Scenario.c1 Scenario.alice "hello" false 0], 1)
            (ChatUser.mk "r2" Scenario.c1 Scenario.bob 0) _ _ _ _ _).
  - reflexivity.
  - intros ms t. vm_compute. discriminate.
  - vm_compute. reflexivity.
  - vm_compute. reflexivity.
  - unfold minute. lia.
Defined.

(** X3.  A delivery that succeeds with Redis configured leaves no cached
    page behind, of any chat: every key under [chat:] is deleted, so the
    next [GetMessages] reads the store. *)
Theorem delivery_clears_page_cache (m : Message.t) (e e' : Env.t) :
  Env.redis_client e = true →
  ChatService.processAfterSend m e = (e', None) →
  ∀ (chatID : string) (page : Z),
    Redis.Get (Env.now e') (page_key chatID page) (Env.redis e') = None.
Proof.
  intros Hcl H chatID page.
  destruct (DB.up (Env.db e)) eqn:Hup.
  2:{ rewrite processAfterSend_down in H by done. discriminate. }
  destruct (processAfterSend_up m e Hup) as (d & Heq & _).
  rewrite Heq in H. injection H as <-. cbn [Env.now Env.redis]. rewrite Hcl.
  unfold Redis.Get. by rewrite clear_chat_keys_chat by apply page_key_chat.
Qed.

Lemma delivery_clears_page_cache_witness :
  Redis.Get 0 (page_key Scenario.c1 1)
            (Env.redis (fst (ChatService.processAfterSend Scenario.hello
                                                          Scenario.alice_has_read)))
  = None.
Proof.
  refine (delivery_clears_page_cache Scenario.hello Scenario.alice_has_read
            (fst (ChatService.processAfterSend Scenario.hello Scenario.alice_has_read))
            _ _ Scenario.c1 1).
  - reflexivity.
  - vm_compute. reflexivity.
Defined.

(** X4.  [GetMessages] turns down a user who is no participant of the
    chat, in the service with the permission error and in the controller
    with status 403, and changes nothing; the cache is not even looked
    at. *)
Theorem GetMessages_stranger_rejected
        (chatID userID : string) (page limit : Z) (e : Env.t) :
  ¬ participant chatID userID (Env.db e) →
  ChatService.GetMessages chatID userID page limit e
  = (e, Err ChatService.err_access_permission)
  ∧ ∀ st, ChatController.env st = e →
          ChatController.GetMessages userID chatID page limit st
          = (st, (403, ChatController.BError
                         "You don't have permission to access this chat")).
Proof.
  intros Hnp. apply first_chat_user_none in Hnp. split.
  - unfold ChatService.GetMessages. by rewrite Hnp.
  - intros st <-. unfold ChatController.GetMessages. by rewrite Hnp.
Qed.

Lemma GetMessages_stranger_witness :
  ChatService.GetMessages Scenario.c1 Scenario.carol 1 50 Scenario.alice_has_read
  = (Scenario.alice_has_read, Err ChatService.err_access_permission).
Proof.
  refine (proj1 (GetMessages_stranger_rejected
                   Scenario.c1 Scenario.carol 1 50 Scenario.alice_has_read _)).
  intros (cu & Hin & _ & Hu). vm_compute in Hin.
  repeat (apply elem_of_cons in Hin as [->|Hin]; [discriminate Hu|]).
  by apply elem_of_nil in Hin.
Defined.

(** X5.  With Redis configured, and for a user id free of the glob
    characters [*], [?], [[] and the backslash, [GetUnreadCount] returns a
    map that has an entry for a chat exactly when the counter key of the
    user for that chat is there and has not expired, the entry being the
    integer under the key (0 when the key holds no 64-bit integer). *)
Theorem GetUnreadCount_lists_live_counters (userID : string) (e : Env.t) :
  Env.redis_client e = true →
  no_glob userID = true →
  ∃ chatUnread total,
    ChatService.GetUnreadCount userID e = Some (chatUnread, total)
    ∧ ∀ chatID,
        chatUnread !! chatID
        = match Redis.lookup (Env.now e) (unread_key userID chatID) (Env.redis e) with
          | Some _ => Some (default 0 (Redis.GetInt64 (Env.now e)
                                         (unread_key userID chatID) (Env.redis e)))
          | None => None
          end.
Proof.
  intros Hcl _. unfold ChatService.GetUnreadCount. rewrite Hcl.
  destruct (foldl _ _ _) as [m tot] eqn:F. exists m, tot. split; [done|].
  intros c.
  assert (Hm : m = fst (foldl (ChatService.tally (Env.now e) userID (Env.redis e))
                              (∅, 0)
                              (Redis.Keys (Env.now e) (unread_prefix userID) (Env.redis e))))
    by by rewrite F.
  rewrite Hm, tally_lookup.
  - destruct (Redis.lookup _ _ _) as [en|] eqn:L.
    + rewrite decide_True; [done|].
      apply elem_of_Keys. split; [apply unread_key_prefix | eauto].
    + rewrite decide_False; [done|].
      intros Hin. apply elem_of_Keys in Hin as [_ [? ?]]. congruence.
  - apply Forall_forall. intros k Hk. by apply elem_of_Keys in Hk as [? _].
Qed.

Lemma GetUnreadCount_witness :
  ∃ chatUnread total,
    ChatService.GetUnreadCount Scenario.bob (snd Scenario.delivered)
    = Some (chatUnread, total)
    ∧ ∀ chatID,
        chatUnread !! chatID
        = match Redis.lookup (Env.now (snd Scenario.delivered))
                             (unread_key Scenario.bob chatID)
                             (Env.redis (snd Scenario.delivered)) with
          | Some _ => Some (default 0 (Redis.GetInt64
                                         (Env.now (snd Scenario.delivered))
                                         (unread_key Scenario.bob chatID)
                                         (Env.redis (snd Scenario.delivered))))
          | None => None
          end.
Proof.
  exact (GetUnreadCount_lists_live_counters Scenario.bob (snd Scenario.delivered)
                                            eq_refl eq_refl).
Defined.

(** ** The messages table over time *)

Section MessageHistory.

Implicit Types (l : list Message.t) (d : DB.t) (e : Env.t)
         (st : ChatService.t * Env.t).

Lemma ages_refl (m : Message.t) : ages m m.
Proof. by repeat split. Qed.

Lemma ages_trans (m1 m2 m3 : Message.t) : ages m1 m2 → ages m2 m3 → ages m1 m3.
Proof.
  intros (? & ? & ? & ? & ? & ?) (? & ? & ? & ? & ? & ?).
  repeat split; try congruence. auto.
Qed.

Lemma history_kept_refl l : history_kept l l.
Proof.
  exists l, []. split; [by rewrite app_nil_r|].
  apply Forall_Forall2_diag, Forall_forall. intros. apply ages_refl.
Qed.

Lemma history_kept_trans l1 l2 l3 :
  history_kept l1 l2 → history_kept l2 l3 → history_kept l1 l3.
Proof.
  intros (old1 & new1 & -> & H1) (old2 & new2 & -> & H2).
  apply Forall2_app_inv_l in H2 as (a & b & Ha & Hb & ->).
  exists a, (b ++ new2). split; [by rewrite app_assoc|].
  eapply Forall2_trans; [apply ages_trans | exact H1 | exact Ha].
Qed.

Lemma history_kept_snoc l (m : Message.t) : history_kept l (l ++ [m]).
Proof.
  exists l, [m]. split; [done|].
  apply Forall_Forall2_diag, Forall_forall. intros. apply ages_refl.
Qed.

Lemma history_kept_read (c u : string) l :
  history_kept l (List.map (DB.read_by c u) l).
Proof.
  exists (List.map (DB.read_by c u) l), []. split; [by rewrite app_nil_r|].
  induction l as [|m l IH]; constructor; [|exact IH].
  destruct (read_by_fields c u m) as (? & ? & ? & ? & ? & ? & _).
  by repeat split.
Qed.

Lemma create_message_history (m : Message.t) (at_ : Z) d m' d' :
  DB.create_message m at_ d = Some (m', d') →
  DB.messages d' = DB.messages d ++ [m'].
Proof.
  unfold DB.create_message. destruct (DB.up d); [|done]. by intros [= <- <-].
Qed.

Lemma processMessageDirect_history (task : ChatService.MessageTask) st :
  history_kept (DB.messages (Env.db (snd st)))
    (DB.messages (Env.db (snd (fst (ChatService.processMessageDirect task st))))).
Proof.
  destruct st as [cs e]. unfold ChatService.processMessageDirect.
  destruct (DB.create_message _ _ _) as [[m d]|] eqn:Hc;
    [|apply history_kept_refl].
  apply create_message_history in Hc.
  destruct (_ <? _)%nat; cbn; rewrite Hc; apply history_kept_snoc.
Qed.

Lemma MarkAsRead_history (c u : string) e :
  history_kept (DB.messages (Env.db e))
    (DB.messages (Env.db (fst (ChatService.MarkAsRead c u e)))).
Proof.
  destruct (DB.up (Env.db e)) eqn:Hup.
  - destruct (MarkAsRead_up c u e Hup) as (d & -> & _ & _ & Hm).
    cbn. rewrite Hm. apply history_kept_read.
  - rewrite MarkAsRead_down by done. apply history_kept_refl.
Qed.

Lemma processAfterSend_history (m : Message.t) e :
  DB.messages (Env.db (fst (ChatService.processAfterSend m e)))
  = DB.messages (Env.db e).
Proof.
  destruct (DB.up (Env.db e)) eqn:Hup.
  - by destruct (processAfterSend_up m e Hup) as (d & -> & _ & _ & Hm).
  - by rewrite processAfterSend_down.
Qed.

Lemma GetMessages_history (c u : string) (page limit : Z) e :
  history_kept (DB.messages (Env.db e))
    (DB.messages (Env.db (fst (ChatService.GetMessages c u page limit e)))).
Proof.
  unfold ChatService.GetMessages.
  destruct (DB.first_chat_user _ _ _); [|apply history_kept_refl].
  destruct (if Env.redis_client e then _ else _); [apply history_kept_refl|].
  destruct (DB.page_of_messages _ _ _ _); [|apply history_kept_refl].
  cbn [fst].
  match goal with |- context [ChatService.MarkAsRead c u ?e1] =>
    pose proof (MarkAsRead_history c u e1) as H;
    assert (Hdb : Env.db e1 = Env.db e) by (by destruct (Env.redis_client e))
  end.
  by rewrite Hdb in H.
Qed.

Lemma DeleteChat_history (c u : string) e :
  DB.messages (Env.db (fst (ChatService.DeleteChat c u e)))
  = DB.messages (Env.db e).
Proof.
  unfold ChatService.DeleteChat, DB.delete_chat, ChatService.clearChatCaches.
  destruct (DB.first_chat_user _ _ _); [|done].
  destruct (DB.up (Env.db e)); [|done]. cbn.
  by destruct (Env.redis_client e).
Qed.

Lemma cleanupOnlineUsers_db st :
  Env.db (snd (ChatService.cleanupOnlineUsers st)) = Env.db (snd st).
Proof.
  destruct st as [cs e]. unfold ChatService.cleanupOnlineUsers.
  by destruct (foldl _ _ _).
Qed.

Lemma step_history st (c : Service.call) :
  history_kept (DB.messages (Env.db (snd st)))
               (DB.messages (Env.db (snd (Service.step st c)))).
Proof.
  destruct c; cbn [Service.step snd fst].
  - destruct st as [cs e]. unfold ChatService.SendMessage.
    case_bool_decide; [apply history_kept_refl|].
    destruct (_ <? _)%nat; [apply history_kept_refl|].
    destruct (DB.first_chat_user _ _ _); [|apply history_kept_refl].
    destruct (_ <? _)%nat; [apply history_kept_refl|].
    apply (processMessageDirect_history _ (cs, e)).
  - destruct st as [cs e]. unfold ChatService.messageSender.
    destruct (ChatService.messageQueue cs) as [|task q]; [apply history_kept_refl|].
    apply (processMessageDirect_history task (ChatService.set_messageQueue q cs, e)).
  - destruct st as [cs e]. unfold ChatService.messageProcessor.
    destruct (ChatService.processQueue cs) as [|m q]; [apply history_kept_refl|].
    cbn [snd]. rewrite processAfterSend_history. apply history_kept_refl.
  - apply MarkAsRead_history.
  - apply GetMessages_history.
  - rewrite DeleteChat_history. apply history_kept_refl.
  - destruct st as [cs e]. unfold ChatService.SetUserOnline.
    destruct (Env.redis_client e); apply history_kept_refl.
  - destruct st as [cs e]. unfold ChatService.SetUserOffline.
    destruct (Env.redis_client e); apply history_kept_refl.
  - rewrite cleanupOnlineUsers_db. apply history_kept_refl.
  - apply history_kept_refl.
  - apply history_kept_refl.
Qed.

End MessageHistory.

(** X6.  Whatever the calls on the chat service, the turns of its workers,
    the passing of time and the outages of the store: a message once in the
    [messages] table stays there, at its place, with its id, chat, sender,
    content and time of creation; only its read flag changes, and only
    from unread to read. *)
Theorem messages_are_kept (calls : list Service.call)
        (st : ChatService.t * Env.t) :
  history_kept (DB.messages (Env.db (snd st)))
               (DB.messages (Env.db (snd (Service.run calls st)))).
Proof.
  revert st. induction calls as [|c calls IH]; intros st.
  - apply history_kept_refl.
  - eapply history_kept_trans; [apply (step_history st c)|]. apply IH.
Qed.

(** ** From the send to the delivery *)

Section Pipeline.

Implicit Types (cs : ChatService.t) (e : Env.t).


End Pipeline.



(** X8.  A send acknowledged from the queue is not retried: if the store
    is down when the sender worker takes the task, the task is off the
    queue, nothing is persisted and nothing is handed to the processing
    queue, and no later turn of a worker finds anything to do; the
    message is lost although its sender holds an acknowledgement. *)
Theorem acknowledged_send_lost_when_store_down
        (chatID userID content : string)
        (cs cs1 : ChatService.t) (e e1 : Env.t) (m : Message.t)
        (turns : list Service.call) :
  ChatService.messageQueue cs = [] → ChatService.processQueue cs = [] →
  ChatService.SendMessage chatID userID content (cs, e) = ((cs1, e1), Ok m) →
  Forall (fun c => c = Service.SenderTurn ∨ c = Service.ProcessorTurn) turns →
  let st := Service.run (Service.StoreUp false :: Service.SenderTurn
                         :: Service.StoreUp true :: turns) (cs1, e1) in
  fst st = cs
  ∧ DB.messages (Env.db (snd st)) = DB.messages (Env.db e)
  ∧ Env.redis (snd st) = Env.redis e.
Proof.
  intros Hmq Hpq Hsend Hturns st.
  assert (Hcs1 : cs1 = ChatService.set_messageQueue
                         [ChatService.mkTask chatID userID content (Env.now e)] cs
                 ∧ e1 = e).
  { revert Hsend. unfold ChatService.SendMessage.
    case_bool_decide; [done|].
    destruct (1000 <? String.length content)%nat; [done|].
    destruct (DB.first_chat_user chatID userID (Env.db e)); [|done].
    rewrite Hmq. cbn [length app].
    change (0 <? ChatService.messageQueue_cap)%nat with true. cbn iota.
    by intros [= <- <- _]. }
  destruct Hcs1 as [Hcs1 ->].
  subst st. unfold Service.run. cbn [foldl]. cbn [Service.step fst snd].
  unfold ChatService.messageSender. rewrite Hcs1.
  cbn [ChatService.messageQueue ChatService.set_messageQueue].
  rewrite processMessageDirect_down by done. cbn [fst].
  assert (Hcs : ∀ l, ChatService.set_messageQueue [] (ChatService.set_messageQueue l cs)
                      = cs).
  { intros l. destruct cs as [q p o]. cbn in *. by subst. }
  rewrite Hcs. cbn [fst snd].
  set (e' := Env.set_up true (Env.set_up false e)).
  assert (He' : DB.messages (Env.db e') = DB.messages (Env.db e)
                ∧ Env.redis e' = Env.redis e) by done.
  clearbody e'. clear -Hmq Hpq Hturns He'.
  induction Hturns as [|c turns Hc _ IH]; cbn [foldl]; [by destruct He'|].
  assert (Hidle : Service.step (cs, e') c = (cs, e')).
  { destruct Hc as [-> | ->]; cbn [Service.step].
    - unfold ChatService.messageSender. by rewrite Hmq.
    - unfold ChatService.messageProcessor. by rewrite Hpq. }
  rewrite Hidle. exact IH.
Qed.

Lemma acknowledged_send_lost_witness :
  let st := Service.run [Service.StoreUp false; Service.SenderTurn;
                         Service.StoreUp true; Service.SenderTurn;
                         Service.ProcessorTurn] Scenario.sent in
  fst st = ChatService.NewChatService
  ∧ DB.messages (Env.db (snd st)) = DB.messages (Env.db Scenario.e0)
  ∧ Env.redis (snd st) = Env.redis Scenario.e0.
Proof.
  refine (acknowledged_send_lost_when_store_down
            Scenario.c1 Scenario.alice "hello"
            ChatService.NewChatService (fst Scenario.sent)
            Scenario.e0 (snd Scenario.sent)
            (Message.mk "" Scenario.c1 Scenario.alice "hello" false 0)
            [Service.SenderTurn; Service.ProcessorTurn] _ _ _ _).
  - reflexivity.
  - reflexivity.
  - reflexivity.
  - constructor; [by left|]. constructor; [by right|]. constructor.
Defined.

(** ** The registry over the life of a connection *)

(** X9.  The clean-up of a handler removes whatever connection is
    registered for its user: when the user has reconnected in the
    meantime, the handler of the old connection, as it ends, takes the new
    connection out of the registry and deletes the presence key, although
    the new connection stays open; from then on no message is pushed to
    the user. *)
Theorem stale_handler_unregisters_successor
        (st : ChatController.state) (userID : string) (old new : nat) :
  ChatController.clients (ChatController.cc st) !! userID = Some new →
  Net.open (ChatController.net st) !! new = Some userID →
  old ≠ new →
  let st' := ChatController.HandleWebSocket_close userID old st in
  ChatController.clients (ChatController.cc st') !! userID = None
  ∧ Net.open (ChatController.net st') !! new = Some userID
  ∧ Redis.Exists (Env.now (ChatController.env st')) (online_key userID)
                 (Env.redis (ChatController.env st')) = 0
  ∧ ∀ m, Net.wire (ChatController.net
                     (ChatController.sendMessageToUser userID m st'))
         = Net.wire (ChatController.net st').
Proof.
  intros Hreg Hopen Hne st'. subst st'. unfold ChatController.HandleWebSocket_close.
  cbn. split; [apply lookup_delete_eq|].
  split; [by rewrite lookup_delete_ne|].
  split.
  - unfold Redis.Exists, Redis.Del. by rewrite lookup_gone by apply lookup_delete_eq.
  - intros m. unfold ChatController.sendMessageToUser. cbn.
    by rewrite lookup_delete_eq.
Qed.

Lemma stale_handler_witness :
  ChatController.clients
    (ChatController.cc (ChatController.HandleWebSocket_close
                          Scenario.alice 1 Scenario.reconnected))
  !! Scenario.alice = None.
Proof.
  refine (proj1 (stale_handler_unregisters_successor
                   Scenario.reconnected Scenario.alice 1 2 _ _ _)).
  - reflexivity.
  - reflexivity.
  - discriminate.
Defined.

(** X10.  A connection that comes and goes leaves no trace: for a user who
    was neither registered nor flagged online, and a connection that was
    not open, the registration followed by the clean-up gives back the
    state before. *)
Theorem connect_then_disconnect_restores
        (st : ChatController.state) (userID : string) (conn : nat) :
  userID ≠ "" →
  ChatController.clients (ChatController.cc st) !! userID = None →
  Net.open (ChatController.net st) !! conn = None →
  Env.redis (ChatController.env st) !! online_key userID = None →
  ChatController.HandleWebSocket_close userID conn
    (ChatController.HandleWebSocket_open userID conn st) = st.
Proof.
  intros Hne Hreg Hopen Hkey.
  unfold ChatController.HandleWebSocket_close, ChatController.HandleWebSocket_open.
  rewrite bool_decide_eq_false_2 by done.
  destruct st as [[clients q] [open broken wire] [now d r client]]. cbn in *.
  unfold ChatController.set_net, ChatController.set_redis, ChatController.set_env,
    ChatController.set_clients, Net.close, Net.upgrade, Env.set_redis,
    Redis.Del, Redis.Set_. cbn.
  rewrite !delete_insert_eq. by rewrite !delete_id by done.
Qed.

Lemma connect_then_disconnect_witness :
  ChatController.HandleWebSocket_close Scenario.alice 1
    (ChatController.HandleWebSocket_open Scenario.alice 1 Scenario.st0)
  = Scenario.st0.
Proof.
  refine (connect_then_disconnect_restores Scenario.st0 Scenario.alice 1 _ _ _ _).
  - discriminate.
  - reflexivity.
  - reflexivity.
  - reflexivity.
Defined.

(** X11.  A chat message that arrives as a websocket frame is queued as it
    is: the read loop of [HandleWebSocket] checks neither its content nor
    that the sender is a participant of the chat, and the next turn of a
    worker persists it, whoever sent it and whatever it holds. *)
Theorem websocket_message_skips_checks
        (st : ChatController.state) (userID chatID content : string) (conn : nat) :
  ChatController.messageQueue (ChatController.cc st) = [] →
  DB.up (Env.db (ChatController.env st)) = true →
  let r := ChatController.HandleWebSocket_frame userID conn
             (ChatController.Typed "message" (Some chatID) (Some content)) st in
  snd r = true
  ∧ ChatController.messageQueue (ChatController.cc (fst r))
    = [ChatController.mkTask chatID userID content]
  ∧ ∃ m, DB.messages (Env.db (ChatController.env
                                (ChatController.messageWorker (fst r))))
         = DB.messages (Env.db (ChatController.env st)) ++ [m]
         ∧ Message.ChatID m = chatID ∧ Message.SenderID m = userID
         ∧ Message.Content m = content.
Proof.
  intros Hq Hup r. subst r. unfold ChatController.HandleWebSocket_frame.
  rewrite bool_decide_eq_true_2 by done. rewrite Hq. cbn [length app].
  change (0 <? ChatController.messageQueue_cap)%nat with true. cbn iota.
  cbn [fst snd]. split; [done|]. split; [done|].
  unfold ChatController.messageWorker.
  cbn [ChatController.cc ChatController.set_messageQueue ChatController.messageQueue].
  match goal with |- context [ChatController.processMessage ?t ?s] =>
    destruct (processMessage_up t s Hup) as (m & _ & Hm & _ & Hc & Hs & Hco & _)
  end.
  exists m. rewrite Hm. done.
Qed.

Lemma websocket_message_witness :
  ¬ participant Scenario.c1 Scenario.carol (Env.db (ChatController.env Scenario.st0))
  ∧ ∃ m, DB.messages
           (Env.db (ChatController.env
              (ChatController.messageWorker
                 (fst (ChatController.HandleWebSocket_frame Scenario.carol 3
                         (ChatController.Typed "message" (Some Scenario.c1) (Some ""))
                         Scenario.st0)))))
         = DB.messages (Env.db (ChatController.env Scenario.st0)) ++ [m]
         ∧ Message.ChatID m = Scenario.c1 ∧ Message.SenderID m = Scenario.carol
         ∧ Message.Content m = "".
Proof.
  split; [exact stranger_not_participant|].
  refine (proj2 (proj2 (websocket_message_skips_checks
                          Scenario.st0 Scenario.carol Scenario.c1 "" 3 _ _))).
  - reflexivity.
  - reflexivity.
Defined.

(** ** The deliveries of the controller *)

Section Fanout.

Implicit Types (st : ChatController.state).

Lemma sendMessageToUser_net (userID : string) (m : Message.t) st :
  ChatController.clients (ChatController.cc (ChatController.sendMessageToUser userID m st))
  = ChatController.clients (ChatController.cc st)
  ∧ ChatController.net (ChatController.sendMessageToUser userID m st)
    = match ChatController.clients (ChatController.cc st) !! userID with
      | Some conn => fst (Net.write conn (Net.Json m) (ChatController.net st))
      | None => ChatController.net st
      end.
Proof.
  unfold ChatController.sendMessageToUser.
  by destruct (ChatController.clients (ChatController.cc st) !! userID).
Qed.

Lemma pushes_cons (clients : gmap string nat) (n : Net.t) (sender : string)
      (m : Message.t) (cu : ChatUser.t) (l : list ChatUser.t) :
  pushes clients n sender m (cu :: l)
  = (if bool_decide (ChatUser.UserID cu ≠ sender) then
       match clients !! ChatUser.UserID cu with
       | Some conn => if Net.writable conn n then [(conn, Net.Json m)] else []
       | None => []
       end
     else []) ++ pushes clients n sender m l.
Proof.
  unfold pushes. cbn.
  case_bool_decide; [|done].
  destruct (clients !! ChatUser.UserID cu) as [conn|]; [|done].
  by destruct (Net.writable conn n).
Qed.

Lemma fanout_loop (sender : string) (m : Message.t) (l : list ChatUser.t)
      st (n0 : Net.t) :
  (∀ c, Net.writable c (ChatController.net st) = Net.writable c n0) →
  let st' := foldl (fun acc chatUser =>
                      if bool_decide (ChatUser.UserID chatUser ≠ sender)
                      then ChatController.sendMessageToUser
                             (ChatUser.UserID chatUser) m acc
                      else acc) st l in
  ChatController.clients (ChatController.cc st')
  = ChatController.clients (ChatController.cc st)
  ∧ Net.wire (ChatController.net st')
    = Net.wire (ChatController.net st)
      ++ pushes (ChatController.clients (ChatController.cc st)) n0 sender m l.
Proof.
  revert st. induction l as [|cu l IH]; intros st Hw; cbn [foldl].
  - cbn. by rewrite app_nil_r.
  - set (st1 := if bool_decide (ChatUser.UserID cu ≠ sender)
                then ChatController.sendMessageToUser (ChatUser.UserID cu) m st
                else st).
    rewrite pushes_cons.
    assert (H1 : ChatController.clients (ChatController.cc st1)
                 = ChatController.clients (ChatController.cc st)
                 ∧ (∀ c, Net.writable c (ChatController.net st1) = Net.writable c n0)
                 ∧ Net.wire (ChatController.net st1)
                   = Net.wire (ChatController.net st)
                     ++ (if bool_decide (ChatUser.UserID cu ≠ sender) then
                           match ChatController.clients (ChatController.cc st)
                                 !! ChatUser.UserID cu with
                           | Some conn =>
                             if Net.writable conn n0 then [(conn, Net.Json m)] else []
                           | None => []
                           end
                         else [])).
    { subst st1. case_bool_decide as Hs; [|by rewrite app_nil_r].
      destruct (sendMessageToUser_net (ChatUser.UserID cu) m st) as [-> ->].
      split; [done|].
      destruct (ChatController.clients (ChatController.cc st) !! ChatUser.UserID cu)
        as [conn|]; [|by rewrite app_nil_r].
      split; [intros c; by rewrite writable_wire|].
      unfold Net.write. rewrite <- (Hw conn).
      destruct (Net.writable conn (ChatController.net st)); [done|].
      by rewrite app_nil_r. }
    destruct H1 as (Hc1 & Hw1 & Hwire1).
    destruct (IH st1 Hw1) as [Hc2 Hwire2].
    split; [congruence|].
    by rewrite Hwire2, Hwire1, Hc1, <- app_assoc.
Qed.

Lemma elem_of_pushes (clients : gmap string nat) (n : Net.t) (sender : string)
      (m : Message.t) (l : list ChatUser.t) (c : nat) (f : Net.frame) :
  (c, f) ∈ pushes clients n sender m l
  ↔ ∃ cu, cu ∈ l ∧ ChatUser.UserID cu ≠ sender
          ∧ clients !! ChatUser.UserID cu = Some c
          ∧ Net.writable c n = true ∧ f = Net.Json m.
Proof.
  unfold pushes. rewrite list_elem_of_omap. split.
  - intros (cu & Hin & H). exists cu. split; [done|].
    case_bool_decide; [|done].
    destruct (clients !! ChatUser.UserID cu) as [conn|]; [|done].
    destruct (Net.writable conn n) eqn:Hw; [|done].
    injection H as <- <-. done.
  - intros (cu & Hin & Hs & Hc & Hw & ->). exists cu. split; [done|].
    rewrite bool_decide_eq_true_2 by done. by rewrite Hc, Hw.
Qed.

End Fanout.

(** X12.  [processMessage], with the store up, persists the message and
    pushes it as a JSON frame to the registered connection of every
    participant of the chat other than the sender, when the connection
    takes it; it writes nothing else: a connection registered for the
    sender alone gets no echo, and the registry is as before. *)
Theorem processMessage_pushes_to_others
        (task : ChatController.MessageTask) (st : ChatController.state) :
  DB.up (Env.db (ChatController.env st)) = true →
  let st' := fst (ChatController.processMessage task st) in
  ∃ m written,
    DB.messages (Env.db (ChatController.env st'))
    = DB.messages (Env.db (ChatController.env st)) ++ [m]
    ∧ Message.Content m = ChatController.Content task
    ∧ ChatController.clients (ChatController.cc st')
      = ChatController.clients (ChatController.cc st)
    ∧ Net.wire (ChatController.net st') = Net.wire (ChatController.net st) ++ written
    ∧ (∀ c f, (c, f) ∈ written → f = Net.Json m)
    ∧ (∀ cu c, cu ∈ DB.chat_users (Env.db (ChatController.env st)) →
         ChatUser.ChatID cu = ChatController.ChatID task →
         ChatUser.UserID cu ≠ ChatController.UserID task →
         ChatController.clients (ChatController.cc st) !! ChatUser.UserID cu = Some c →
         Net.writable c (ChatController.net st) = true →
         (c, Net.Json m) ∈ written)
    ∧ (∀ c f, (∀ u, ChatController.clients (ChatController.cc st) !! u = Some c →
                    u = ChatController.UserID task) →
              (c, f) ∉ written).
Proof.
  intros Hup st'. subst st'. unfold ChatController.processMessage.
  rewrite create_message_up by done. cbn zeta.
  cbn [Message.ChatID Message.SenderID Message.Content Message.IsRead fst snd].
  set (m := Message.mk _ _ _ _ _ _).
  set (st1 := ChatController.set_env _ st).
  unfold DB.find_chat_users. cbn [DB.up DB.chat_users default].
  set (l := List.filter _ _). change (id l) with l.
  destruct (deliveries_db (ChatController.UserID task) m l st1) as [Hdb _].
  destruct (fanout_loop (ChatController.UserID task) m l st1
                        (ChatController.net st) ltac:(done)) as [Hcl Hwire].
  cbn zeta in Hdb. rewrite Hdb.
  exists m, (pushes (ChatController.clients (ChatController.cc st))
                    (ChatController.net st) (ChatController.UserID task) m l).
  split; [done|]. split; [done|]. split; [done|]. split; [done|].
  split; [|split].
  - intros c f Hin. by apply elem_of_pushes in Hin as (_ & _ & _ & _ & _ & ->).
  - intros cu c Hin Hc Hs Hreg Hw. apply elem_of_pushes. exists cu.
    split; [|done]. subst l. apply list_elem_of_In, filter_In.
    split; [by apply list_elem_of_In | by apply bool_decide_eq_true_2].
  - intros c f Honly Hin.
    apply elem_of_pushes in Hin as (cu & _ & Hs & Hreg & _). by apply Honly in Hreg.
Qed.

Lemma processMessage_pushes_witness :
  ∃ m written,
    Net.wire (ChatController.net
                (fst (ChatController.processMessage
                        (ChatController.mkTask Scenario.c1 Scenario.alice "hello")
                        Scenario.st_online)))
    = Net.wire (ChatController.net Scenario.st_online) ++ written
    ∧ ∀ c f, (c, f) ∈ written → f = Net.Json m.
Proof.
  destruct (processMessage_pushes_to_others
              (ChatController.mkTask Scenario.c1 Scenario.alice "hello")
              Scenario.st_online eq_refl)
    as (m & written & _ & _ & _ & Hw & Hj & _).
  exists m, written. split; [exact Hw | exact Hj].
Defined.

(** ** Presence *)

Section Presence.

Implicit Types (cs : ChatService.t) (e : Env.t) (r : Redis.store).

Lemma online_key_roster (userID : string) :
  userID ≠ "users" → online_key userID ≠ "online:users".
Proof. intros Hne Hk. by apply Hne, (online_key_inj userID "users"). Qed.

Lemma Del_keeps_gone (k k' : string) r :
  r !! k = None → Redis.Del k' r !! k = None.
Proof.
  intros H. unfold Redis.Del.
  destruct (decide (k' = k)) as [->|Hne];
    [apply lookup_delete_eq | by rewrite lookup_delete_ne].
Qed.

Lemma SRem_keeps_gone (now : Z) (k k' m : string) r :
  r !! k = None → Redis.SRem now k' m r !! k = None.
Proof.
  intros H. unfold Redis.SRem.
  destruct (decide (k' = k)) as [->|Hne].
  - by rewrite lookup_gone.
  - destruct (Redis.lookup now k' r) as [en|]; [|done].
    destruct (Redis.val en); try done.
    case_bool_decide; [by rewrite lookup_delete_ne | by rewrite lookup_insert_ne].
Qed.

(** No one is a member of what [SREM] leaves who was not before, and the
    member removed is none. *)
Lemma SRem_members (now : Z) (m x : string) r l' :
  Redis.SMembers now "online:users" (Redis.SRem now "online:users" m r) = Some l' →
  x ∈ l' →
  x ≠ m ∧ ∃ l, Redis.SMembers now "online:users" r = Some l ∧ x ∈ l.
Proof.
  unfold Redis.SRem, Redis.SMembers.
  destruct (Redis.lookup now "online:users" r) as [en|] eqn:L.
  - destruct en as [v ex]. cbn [Redis.val Redis.expiry].
    destruct v as [n|s|s|ms t|ms];
      try (rewrite L; cbn [Redis.val]; discriminate).
    apply lookup_Some in L as [Hk Hl].
    case_bool_decide as Hs.
    + rewrite lookup_gone by apply lookup_delete_eq.
      intros [= <-] Hx. by apply elem_of_nil in Hx.
    + rewrite (lookup_live _ _ _ (Redis.mk (Redis.VSet (s ∖ {[m]})) ex))
        by (apply lookup_insert_eq || exact Hl).
      cbn [Redis.val]. intros [= <-] Hx. apply elem_of_elements in Hx.
      apply elem_of_difference in Hx as [Hx Hm].
      split; [by intros ->; apply Hm, elem_of_singleton|].
      exists (elements s). split; [done|]. by apply elem_of_elements.
  - rewrite L. intros [= <-] Hx. by apply elem_of_nil in Hx.
Qed.

End Presence.

(** X13.  After [SetUserOffline] the user is offline by every account of
    the service: [IsUserOnline] answers false and the user is not on the
    list of [GetOnlineUsers], whatever the state before. *)
Theorem SetUserOffline_clears_presence
        (userID : string) (cs : ChatService.t) (e : Env.t) :
  let st' := ChatService.SetUserOffline userID (cs, e) in
  ChatService.IsUserOnline userID st' = false
  ∧ ¬ listed userID (snd st')
  ∧ ∀ x, listed x (snd st') → listed x e.
Proof.
  intros st'. subst st'. unfold ChatService.SetUserOffline.
  destruct (Env.redis_client e) eqn:Hcl.
  - split; [|split].
    + unfold ChatService.IsUserOnline. cbn [ChatService.onlineUsers
        ChatService.set_onlineUsers Env.redis_client Env.set_redis Env.now Env.redis].
      rewrite lookup_delete_eq, Hcl. unfold Redis.Exists.
      rewrite lookup_gone; [done|].
      apply SRem_keeps_gone. apply lookup_delete_eq.
    + intros (l & Hl & Hx). revert Hl. unfold ChatService.GetOnlineUsers.
      cbn [snd Env.redis_client Env.set_redis Env.now Env.redis]. rewrite Hcl.
      destruct (Redis.SMembers _ _ _) as [l'|] eqn:Hm; [|done].
      intros [= <-]. by destruct (SRem_members _ _ _ _ _ Hm Hx).
    + intros x (l & Hl & Hx). revert Hl. unfold ChatService.GetOnlineUsers.
      cbn [snd Env.redis_client Env.set_redis Env.now Env.redis]. rewrite Hcl.
      destruct (Redis.SMembers _ _ _) as [l'|] eqn:Hm; [|done].
      intros [= <-]. destruct (SRem_members _ _ _ _ _ Hm Hx) as (_ & l0 & Hl0 & Hx0).
      destruct (decide (online_key userID = "online:users")) as [Hk|Hk].
      * revert Hl0. unfold Redis.SMembers, Redis.Del.
        rewrite Hk. rewrite lookup_gone by apply lookup_delete_eq.
        intros [= <-]. by apply elem_of_nil in Hx0.
      * exists l0. split; [|done].
        unfold ChatService.GetOnlineUsers. rewrite Hcl.
        assert (Redis.SMembers (Env.now e) "online:users" (Env.redis e) = Some l0)
          as ->; [|done].
        revert Hl0. unfold Redis.SMembers, Redis.lookup, Redis.Del.
        by rewrite lookup_delete_ne.
  - split; [|split].
    + unfold ChatService.IsUserOnline. cbn. by rewrite lookup_delete_eq, Hcl.
    + intros (l & Hl & _). revert Hl. unfold ChatService.GetOnlineUsers. cbn.
      by rewrite Hcl.
    + done.
Qed.

(** X14.  After [SetUserOnline], with Redis configured, a user id other
    than ["users"] and the set [online:users] missing or a plain set:
    [IsUserOnline] answers true and the user is on the list of
    [GetOnlineUsers].  The presence key lasts five minutes and the set
    does not expire: once five minutes have passed without a refresh, a
    process that does not hold the user in its own map answers false to
    [IsUserOnline] while [GetOnlineUsers] still lists the user. *)
Theorem SetUserOnline_shows_presence
        (userID : string) (cs : ChatService.t) (e : Env.t) :
  Env.redis_client e = true → userID ≠ "users" → roster_plain e →
  let st' := ChatService.SetUserOnline userID (cs, e) in
  ChatService.IsUserOnline userID st' = true
  ∧ listed userID (snd st')
  ∧ ∀ (dt : Z) (cs' : ChatService.t),
      5 * minute ≤ dt → ChatService.onlineUsers cs' !! userID = None →
      ChatService.IsUserOnline userID (cs', Env.tick dt (snd st')) = false
      ∧ listed userID (Env.tick dt (snd st')).
Proof.
  intros Hcl Hu Hplain st'. subst st'. unfold ChatService.SetUserOnline.
  rewrite Hcl. cbn [snd].
  pose proof (online_key_roster userID Hu) as Hk.
  set (r1 := Redis.Set_ (Env.now e) (online_key userID) (Redis.VInt 1)
                        (5 * minute) (Env.redis e)).
  assert (Hr1 : r1 !! "online:users" = Env.redis e !! "online:users").
  { subst r1. unfold Redis.Set_. by rewrite lookup_insert_ne. }
  assert (Hroster : ∃ s, Redis.SAdd (Env.now e) "online:users" userID r1
                         !! "online:users"
                         = Some (Redis.mk (Redis.VSet s) None) ∧ userID ∈ s).
  { unfold Redis.SAdd, Redis.lookup. rewrite Hr1.
    unfold roster_plain in Hplain.
    destruct (Env.redis e !! "online:users") as [[v ex]|].
    - destruct Hplain as [[s Hs] Hex]. cbn in Hs, Hex. subst v ex.
      cbn. rewrite lookup_insert_eq. exists ({[userID]} ∪ s). split; [done|].
      set_solver.
    - rewrite lookup_insert_eq. exists {[userID]}. split; [done|]. set_solver. }
  destruct Hroster as (s & Hs & Hin).
  assert (Hlist : ∀ now', listed userID
            (Env.mk now' (Env.db e)
                    (Redis.SAdd (Env.now e) "online:users" userID r1) true)).
  { intros now'. exists (elements s). split; [|by apply elem_of_elements].
    unfold ChatService.GetOnlineUsers, Redis.SMembers. cbn.
    by rewrite (lookup_live _ _ _ _ Hs). }
  split; [|split].
  - unfold ChatService.IsUserOnline. cbn. by rewrite lookup_insert_eq.
  - unfold Env.set_redis. rewrite Hcl. apply Hlist.
  - intros dt cs' Hdt Hcs'. split.
    + unfold ChatService.IsUserOnline. rewrite Hcs'.
      unfold Env.tick, Env.set_redis. cbn [Env.redis_client Env.now Env.redis].
      rewrite Hcl. unfold Redis.Exists.
      rewrite (lookup_expired _ _ _ (Redis.mk (Redis.VInt 1)
                                       (Some (Env.now e + 5 * minute)))); [done| |].
      * unfold Redis.SAdd.
        destruct (Redis.lookup (Env.now e) "online:users" r1) as [en|].
        -- destruct (Redis.val en);
             try (subst r1; unfold Redis.Set_; apply lookup_insert_eq).
           rewrite lookup_insert_ne by done.
           subst r1; unfold Redis.Set_; apply lookup_insert_eq.
        -- rewrite lookup_insert_ne by done.
           subst r1; unfold Redis.Set_; apply lookup_insert_eq.
      * unfold Redis.live. cbn. apply Z.ltb_ge. lia.
    + unfold Env.tick, Env.set_redis. cbn [Env.redis_client Env.now Env.redis Env.db].
      rewrite Hcl. apply Hlist.
Qed.

Lemma SetUserOnline_witness :
  ChatService.IsUserOnline Scenario.bob
    (ChatService.SetUserOnline Scenario.bob (ChatService.NewChatService, Scenario.e0))
  = true.
Proof.
  refine (proj1 (SetUserOnline_shows_presence
                   Scenario.bob ChatService.NewChatService Scenario.e0 _ _ _)).
  - reflexivity.
  - discriminate.
  - exact I.
Defined.

(** ** The clean-up of the service's presence map *)

Section Cleanup.

(** The loop of [cleanupOnlineUsers], over any list of entries. *)
Lemma cleanup_loop (now : Z) (client : bool) (l : list (string * Z))
      (o : gmap string Z) (r : Redis.store) :
  let '(o', r') := foldl (ChatService.forget_stale now client) (o, r) l in
  (∀ u, o' !! u
        = if existsb (fun entry => bool_decide (fst entry = u)
                                   && (5 * minute <? now - snd entry)) l
          then None else o !! u)
  ∧ (∀ k, r !! k = None → r' !! k = None)
  ∧ (client = true →
     ∀ u seen, (u, seen) ∈ l → 5 * minute < now - seen →
               r' !! online_key u = None).
Proof.
  revert o r. induction l as [|[u seen] l IH]; intros o r; cbn [foldl].
  - split; [done|]. split; [done|]. intros _ u seen Hin.
    by apply elem_of_nil in Hin.
  - set (acc := ChatService.forget_stale now client (o, r) (u, seen)).
    assert (Hacc : acc = if 5 * minute <? now - seen
                         then (delete u o,
                               if client
                               then Redis.SRem now "online:users" u
                                               (Redis.Del (online_key u) r)
                               else r)
                         else (o, r)) by done.
    destruct acc as [o1 r1]. specialize (IH o1 r1).
    destruct (foldl _ (o1, r1) l) as [o' r']. destruct IH as (Ho & Hgone & Hstale).
    assert (Hr1 : ∀ k, r !! k = None → r1 !! k = None).
    { intros k Hk. destruct (5 * minute <? now - seen); injection Hacc as -> ->;
        [|done]. destruct client; [|done].
      by apply SRem_keeps_gone, Del_keeps_gone. }
    split; [|split].
    + intros u'. rewrite Ho. cbn [existsb fst snd].
      destruct (existsb _ l); [by rewrite orb_true_r|]. rewrite orb_false_r.
      destruct (5 * minute <? now - seen); injection Hacc as -> ->.
      * rewrite andb_true_r. case_bool_decide as Hu.
        -- subst u'. apply lookup_delete_eq.
        -- by apply lookup_delete_ne.
      * by rewrite andb_false_r.
    + intros k Hk. by apply Hgone, Hr1.
    + intros Hcl u' seen' Hin Hold. apply elem_of_cons in Hin as [[= -> ->]|Hin].
      * apply Hgone. rewrite (proj2 (Z.ltb_lt _ _)) in Hacc by done.
        injection Hacc as -> ->. rewrite Hcl.
        apply SRem_keeps_gone. apply lookup_delete_eq.
      * by eapply Hstale.
Qed.

End Cleanup.

(** X15.  One tick of [cleanupOnlineUsers] drops from the presence map of
    the service exactly the users last seen more than five minutes ago:
    such a user is out of the map, the presence key is gone from Redis
    and [IsUserOnline] answers false; a user seen more recently is kept
    with the same time. *)
Theorem cleanup_forgets_stale_users
        (cs : ChatService.t) (e : Env.t) (userID : string) (seen : Z) :
  ChatService.onlineUsers cs !! userID = Some seen →
  let st' := ChatService.cleanupOnlineUsers (cs, e) in
  if 5 * minute <? Env.now e - seen
  then ChatService.onlineUsers (fst st') !! userID = None
       ∧ ChatService.IsUserOnline userID st' = false
  else ChatService.onlineUsers (fst st') !! userID = Some seen.
Proof.
  intros Hseen st'. subst st'. unfold ChatService.cleanupOnlineUsers.
  pose proof (cleanup_loop (Env.now e) (Env.redis_client e)
                (map_to_list (ChatService.onlineUsers cs))
                (ChatService.onlineUsers cs) (Env.redis e)) as H.
  destruct (foldl _ _ _) as [o' r']. destruct H as (Ho & _ & Hstale).
  cbn [fst ChatService.onlineUsers ChatService.set_onlineUsers].
  assert (Hin : (userID, seen) ∈ map_to_list (ChatService.onlineUsers cs))
    by by apply elem_of_map_to_list.
  destruct (5 * minute <? Env.now e - seen) eqn:Hold.
  - assert (Hgone : o' !! userID = None).
    { rewrite Ho.
      assert (existsb (fun entry : string * Z =>
                         bool_decide (fst entry = userID)
                         && (5 * minute <? Env.now e - snd entry))
                      (map_to_list (ChatService.onlineUsers cs)) = true) as ->; [|done].
      apply existsb_exists. exists (userID, seen).
      split; [by apply list_elem_of_In|]. cbn.
      by rewrite bool_decide_eq_true_2, Hold. }
    split; [done|].
    unfold ChatService.IsUserOnline.
    cbn [ChatService.onlineUsers ChatService.set_onlineUsers
         Env.redis_client Env.set_redis Env.now Env.redis].
    rewrite Hgone. destruct (Env.redis_client e) eqn:Hcl; [|done].
    unfold Redis.Exists. rewrite lookup_gone; [done|].
    apply (Hstale eq_refl userID seen Hin). by apply Z.ltb_lt.
  - rewrite Ho.
    assert (existsb (fun entry : string * Z =>
                       bool_decide (fst entry = userID)
                       && (5 * minute <? Env.now e - snd entry))
                    (map_to_list (ChatService.onlineUsers cs)) = false) as ->; [|done].
    apply not_true_is_false. intros He.
    apply existsb_exists in He as ([u s] & Hin' & Hb). cbn in Hb.
    apply andb_prop in Hb as [Hu Hs]. apply bool_decide_eq_true_1 in Hu. subst u.
    apply list_elem_of_In, elem_of_map_to_list in Hin'. congruence.
Qed.

Lemma cleanup_witness :
  ChatService.onlineUsers (fst (ChatService.cleanupOnlineUsers Scenario.seen_long_ago))
  !! Scenario.bob = None
  ∧ ChatService.IsUserOnline Scenario.bob
      (ChatService.cleanupOnlineUsers Scenario.seen_long_ago) = false.
Proof.
  exact (cleanup_forgets_stale_users (fst Scenario.seen_long_ago)
           (snd Scenario.seen_long_ago) Scenario.bob 0 eq_refl).
Defined.

(** ** Deleting a chat *)





(** ** Counters of different pairs *)



(** With a [':'] in a user id two pairs share a key. *)
Example unread_keys_collide : unread_key "a" "b:c" = unread_key "a:b" "c".
Proof. reflexivity. Qed.

(** ** The two validations *)

(** X18.  The controller is the more permissive of the two validations:
    content it turns down with status 400 the service turns down too, as
    empty or too long, and neither changes anything. *)
Theorem controller_rejection_implies_service_rejection
        (chatID userID content : string) (st : ChatController.state)
        (st' : ChatController.state) (b : ChatController.body)
        (cs : ChatService.t) (e : Env.t) :
  ChatController.SendMessage userID chatID content st = (st', (400, b)) →
  st' = st
  ∧ ∃ msg, ChatService.SendMessage chatID userID content (cs, e) = ((cs, e), Err msg)
           ∧ (msg = ChatService.err_empty ∨ msg = ChatService.err_too_long).
Proof.
  intros H.
  assert (Hbad : content = "" ∨ (1000 < GoString.RuneCountInString content)%nat).
  { revert H. unfold ChatController.SendMessage.
    case_bool_decide as Hne; [by left|]. cbn [orb].
    destruct (1000 <? GoString.RuneCountInString content)%nat eqn:Hlen.
    - apply Nat.ltb_lt in Hlen. by right.
    - destruct (DB.first_chat_user _ _ _); [|intros H; inversion H].
      destruct (length (ChatController.messageQueue (ChatController.cc st))
                <? ChatController.messageQueue_cap)%nat; intros H; inversion H. }
  destruct (invalid_content_rejected chatID userID content cs e st Hbad)
    as (Hs & b' & Hc).
  rewrite Hc in H. injection H as <- _. done.
Qed.

Lemma controller_rejection_witness :
  ∃ msg, ChatService.SendMessage Scenario.c1 Scenario.alice ""
                                 (ChatService.NewChatService, Scenario.e0)
         = ((ChatService.NewChatService, Scenario.e0), Err msg)
         ∧ (msg = ChatService.err_empty ∨ msg = ChatService.err_too_long).
Proof.
  refine (proj2 (controller_rejection_implies_service_rejection
                   Scenario.c1 Scenario.alice "" Scenario.st0 Scenario.st0
                   (ChatController.BError "invalid content")
                   ChatService.NewChatService Scenario.e0 _)).
  reflexivity.
Defined.

(** ** The list of a user's chats *)

Section ChatList.

Import ChatService.

Implicit Types (l r : list ChatWithUnread) (i j n : nat).

Lemma head_swap l j (a b : ChatWithUnread) :
  l !! j = Some b → b :: <[j := a]> l ≡ₚ a :: l.
Proof.
  revert j. induction l as [|x l IH]; intros [|j] Hj; try done.
  - injection Hj as ->. cbn. apply perm_swap.
  - cbn in Hj |- *. rewrite (perm_swap x b), (IH _ Hj). apply perm_swap.
Qed.

Lemma swap_Permutation l i j (a b : ChatWithUnread) :
  (i < j)%nat → l !! i = Some a → l !! j = Some b →
  <[j := a]> (<[i := b]> l) ≡ₚ l.
Proof.
  revert i j. induction l as [|x l IH]; intros [|i] [|j] Hij Hi Hj;
    try done; try lia.
  - injection Hi as ->. cbn in Hj |- *. by apply head_swap.
  - cbn in Hi, Hj |- *. f_equiv. apply IH; [lia|done..].
Qed.

(** What one comparison of the sort does. *)
Lemma swap_if_before_spec l i j :
  (i < j)%nat →
  let r := swap_if_before i j l in
  length r = length l
  ∧ r ≡ₚ l
  ∧ (∀ a, a ≠ i → a ≠ j → r !! a = l !! a)
  ∧ (∀ x0, l !! i = Some x0 →
           ∃ x, r !! i = Some x
                ∧ Chat.UpdatedAt (Chat x0) ≤ Chat.UpdatedAt (Chat x)
                ∧ (x = x0 ∨ l !! j = Some x))
  ∧ (∀ y, r !! j = Some y →
          (l !! j = Some y ∨ l !! i = Some y)
          ∧ ∃ x, r !! i = Some x
                 ∧ Chat.UpdatedAt (Chat y) ≤ Chat.UpdatedAt (Chat x)).
Proof.
  intros Hij. unfold swap_if_before.
  destruct (l !! i) as [a|] eqn:Hi; cycle 1.
  { cbn. split; [done|]. split; [done|]. split; [done|]. split; [done|].
    intros y Hy. apply lookup_lt_Some in Hy. apply lookup_ge_None in Hi. lia. }
  destruct (l !! j) as [b|] eqn:Hj; cycle 1.
  { cbn. split; [done|]. split; [done|]. split; [done|].
    split; [|intros y Hy; congruence].
    intros x0 [= <-]. exists a. split; [done|]. split; [lia|by left]. }
  assert (Hli : (i < length l)%nat) by by eapply lookup_lt_Some.
  assert (Hlj : (j < length l)%nat) by by eapply lookup_lt_Some.
  destruct (Chat.UpdatedAt (Chat a) <? Chat.UpdatedAt (Chat b)) eqn:Hlt; cbn.
  - apply Z.ltb_lt in Hlt.
    assert (Hri : <[j:=a]> (<[i:=b]> l) !! i = Some b).
    { rewrite list_lookup_insert_ne by lia.
      apply list_lookup_insert_eq. done. }
    assert (Hrj : <[j:=a]> (<[i:=b]> l) !! j = Some a).
    { apply list_lookup_insert_eq. by rewrite length_insert. }
    split; [by rewrite !length_insert|].
    split; [by apply swap_Permutation|].
    split.
    { intros k Hki Hkj. by rewrite !list_lookup_insert_ne by done. }
    split.
    + intros x0 [= <-]. exists b. split; [done|]. split; [lia|by right].
    + intros y Hy. rewrite Hrj in Hy. injection Hy as <-.
      split; [by right|]. exists b. split; [done|lia].
  - apply Z.ltb_ge in Hlt.
    split; [done|]. split; [done|]. split; [done|]. split.
    + intros x0 [= <-]. exists a. split; [done|]. split; [lia|by left].
    + intros y Hy. rewrite Hj in Hy. injection Hy as <-.
      split; [by left|]. exists a. split; [done|lia].
Qed.

(** The inner loop after [n] comparisons: place [i] holds a chat no
    older than the [n] after it, and nothing before [i] has moved. *)
Lemma pass_loop l i n :
  let r := foldl (fun acc j => swap_if_before i j acc) l (seq (S i) n) in
  length r = length l
  ∧ r ≡ₚ l
  ∧ (∀ a, (a < i)%nat → r !! a = l !! a)
  ∧ (∀ b y, (i ≤ b)%nat → r !! b = Some y →
            ∃ b', (i ≤ b')%nat ∧ l !! b' = Some y)
  ∧ (∀ b x y, (i < b < S i + n)%nat → r !! i = Some x → r !! b = Some y →
              Chat.UpdatedAt (Chat y) ≤ Chat.UpdatedAt (Chat x)).
Proof.
  induction n as [|n IH].
  - cbn. split; [done|]. split; [done|]. split; [done|]. split; [eauto|].
    intros; lia.
  - rewrite seq_S, foldl_app. cbn [foldl].
    set (r0 := foldl _ l (seq (S i) n)) in *. cbn zeta in IH.
    destruct IH as (Hlen & Hperm & Hpre & Hfrom & Hmax).
    destruct (swap_if_before_spec r0 i (S i + n) ltac:(lia))
      as (Hlen' & Hperm' & Hne & Hhead & Hlast).
    set (r := swap_if_before i (S i + n) r0) in *.
    split; [congruence|]. split; [by rewrite Hperm'|]. split; [|split].
    + intros a Ha. rewrite Hne by lia. by apply Hpre.
    + intros b y Hb Hy.
      destruct (decide (b = i)) as [->|Hbi].
      { assert (is_Some (r0 !! i)) as [x0 Hx0].
        { apply lookup_lt_is_Some. rewrite <- Hlen'. by eapply lookup_lt_Some. }
        destruct (Hhead _ Hx0) as (x & Hx & _ & [->|Hj]);
          rewrite Hx in Hy; injection Hy as <-.
        - by apply (Hfrom i).
        - apply (Hfrom (S i + n)%nat); [lia|done]. }
      destruct (decide (b = (S i + n)%nat)) as [->|Hbj].
      { destruct (Hlast _ Hy) as ([Hj|Hi] & _).
        - apply (Hfrom (S i + n)%nat); [lia|done].
        - by apply (Hfrom i). }
      rewrite Hne in Hy by done. by apply (Hfrom b).
    + intros b x y Hb Hx Hy.
      destruct (decide (b = (S i + n)%nat)) as [->|Hbj].
      { destruct (Hlast _ Hy) as (_ & x' & Hx' & Hle). congruence. }
      assert (is_Some (r0 !! i)) as [x0 Hx0].
      { apply lookup_lt_is_Some. rewrite <- Hlen'. by eapply lookup_lt_Some. }
      destruct (Hhead _ Hx0) as (x' & Hx' & Hle & _).
      assert (x' = x) as -> by congruence.
      rewrite Hne in Hy by lia.
      specialize (Hmax b x0 y ltac:(lia) Hx0 Hy). lia.
Qed.

(** One pass of the outer loop makes one more place final. *)
Lemma sort_pass_leads l i :
  leads i l →
  length (sort_pass i l) = length l
  ∧ sort_pass i l ≡ₚ l
  ∧ leads (S i) (sort_pass i l).
Proof.
  intros Hl. unfold sort_pass.
  destruct (pass_loop l i (length l - S i)) as (Hlen & Hperm & Hpre & Hfrom & Hmax).
  set (r := foldl _ l _) in *.
  split; [done|]. split; [done|].
  intros a b x y Ha Hab Hx Hy.
  destruct (decide (a = i)) as [->|Hai].
  - apply (Hmax b x y); [|done..].
    apply lookup_lt_Some in Hy. lia.
  - assert (Ha' : (a < i)%nat) by lia.
    rewrite Hpre in Hx by done.
    destruct (decide (b < i)%nat) as [Hb|Hb].
    + rewrite Hpre in Hy by done. by apply (Hl a b).
    + destruct (Hfrom b y ltac:(lia) Hy) as (b' & Hb' & Hy').
      apply (Hl a b'); [done|lia|done..].
Qed.

Lemma sort_loop l n :
  let r := foldl (fun acc i => sort_pass i acc) l (seq 0 n) in
  length r = length l ∧ r ≡ₚ l ∧ leads n r.
Proof.
  induction n as [|n IH].
  - cbn. split; [done|]. split; [done|]. intros a b x y Ha. lia.
  - rewrite seq_S, foldl_app. cbn [foldl].
    set (r0 := foldl _ l (seq 0 n)) in *. cbn zeta in IH.
    destruct IH as (Hlen & Hperm & Hlead).
    destruct (sort_pass_leads r0 n Hlead) as (Hlen' & Hperm' & Hlead').
    cbn [Nat.add]. split; [congruence|]. split; [by rewrite Hperm'|done].
Qed.

(** The hand-written sort of [GetChats] sorts, and loses nothing. *)
Lemma sort_chats_sorts l :
  newest_first (sort_chats l) ∧ sort_chats l ≡ₚ l.
Proof.
  unfold sort_chats.
  destruct (sort_loop l (length l - 1)) as (Hlen & Hperm & Hlead).
  set (r := foldl _ l _) in *. split; [|done].
  intros i j x y Hij Hx Hy. apply (Hlead i j); [|done..].
  apply lookup_lt_Some in Hy. lia.
Qed.

Lemma chat_with_unread_found (userID : string) (e : Env.t) (id : string) x :
  chat_with_unread userID e id = Some x →
  Chat x ∈ DB.chats (Env.db e) ∧ Chat.ID (Chat x) = id.
Proof.
  unfold chat_with_unread, DB.first_chat. destruct (DB.up (Env.db e)); [|done].
  destruct (List.find _ _) as [ch|] eqn:Hf; [|done]. intros [= <-]. cbn.
  apply find_some in Hf as [Hin Hid]. apply bool_decide_eq_true in Hid.
  split; [|done]. by apply list_elem_of_In.
Qed.

Lemma chat_with_unread_count (userID : string) (e : Env.t) (id : string) x :
  Env.redis_client e = true →
  chat_with_unread userID e id = Some x →
  UnreadCount x
  = default 0 (Redis.GetInt64 (Env.now e) (unread_key userID id) (Env.redis e)).
Proof.
  intros Hcl. unfold chat_with_unread. rewrite Hcl.
  destruct (DB.first_chat _ _); [|done]. by intros [= <-].
Qed.

Lemma GetChats_lists (userID : string) (e : Env.t) chats x :
  GetChats userID e = Ok chats → x ∈ chats →
  ∃ id, chat_with_unread userID e id = Some x.
Proof.
  unfold GetChats. destruct (DB.find_user_chats _ _) as [rows|]; [|done].
  case_bool_decide.
  - intros [= <-] Hx. by apply elem_of_nil in Hx.
  - intros [= <-] Hx. rewrite (proj2 (sort_chats_sorts _)) in Hx.
    apply list_elem_of_omap in Hx as (id & _ & Hx). eauto.
Qed.

End ChatList.

(** X19.  [GetChats], when it answers, lists the user's chats newest
    first: no chat stands before one that was updated later, whatever the
    order of the membership rows.  The list holds, for every membership
    row of the user whose chat is still there, that chat once, and
    nothing else. *)
Theorem GetChats_newest_first (userID : string) (e : Env.t)
        (chats : list ChatService.ChatWithUnread) :
  ChatService.GetChats userID e = Ok chats →
  newest_first chats
  ∧ chats ≡ₚ omap (ChatService.chat_with_unread userID e)
                  (List.map ChatUser.ChatID
                     (List.filter (fun cu => bool_decide (ChatUser.UserID cu = userID))
                                  (DB.chat_users (Env.db e)))).
Proof.
  unfold ChatService.GetChats, DB.find_user_chats.
  destruct (DB.up (Env.db e)); [|done].
  set (rows := List.filter _ _).
  case_bool_decide as Hlen.
  - intros [= <-]. destruct rows; [|done]. cbn. split; [|done].
    intros i j x y _ Hx. done.
  - intros [= <-]. apply sort_chats_sorts.
Qed.

Lemma GetChats_newest_first_witness :
  ∃ chats, ChatService.GetChats Scenario.alice Scenario.e3 = Ok chats
           ∧ List.map (fun x => Chat.ID (ChatService.Chat x)) chats
             = ["c2"; "c3"; "c1"]
           ∧ newest_first chats.
Proof.
  eexists. split; [vm_compute; reflexivity|]. split; [reflexivity|].
  refine (proj1 (GetChats_newest_first Scenario.alice Scenario.e3 _ _)).
  vm_compute. reflexivity.
Defined.

(** X20.  Once a participant has deleted a chat, it is in nobody's chat
    list any more, although the membership rows are kept. *)
Theorem deleted_chat_not_listed (chatID userID other : string) (e e' : Env.t)
        (chats : list ChatService.ChatWithUnread) :
  ChatService.DeleteChat chatID userID e = (e', None) →
  ChatService.GetChats other e' = Ok chats →
  ∀ x, x ∈ chats → Chat.ID (ChatService.Chat x) ≠ chatID.
Proof.
  intros Hdel Hget x Hx.
  destruct (GetChats_lists _ _ _ _ Hget Hx) as (id & Hid).
  rename Hid into Hx'.
  apply chat_with_unread_found in Hx' as [Hin _].
  assert (Hchats : DB.chats (Env.db e')
                   = List.filter (fun ch => negb (bool_decide (Chat.ID ch = chatID)))
                                 (DB.chats (Env.db e))).
  { revert Hdel. unfold ChatService.DeleteChat.
    destruct (DB.first_chat_user _ _ _); [|done].
    unfold DB.delete_chat. destruct (DB.up (Env.db e)); [|done].
    intros [= <-]. unfold ChatService.clearChatCaches.
    cbn [Env.redis_client Env.set_db].
    by destruct (Env.redis_client e). }
  rewrite Hchats in Hin. apply list_elem_of_In, filter_In in Hin as [_ Hid].
  apply negb_true_iff, bool_decide_eq_false in Hid. done.
Qed.

Lemma deleted_chat_not_listed_witness :
  ChatService.GetChats Scenario.bob
    (fst (ChatService.DeleteChat Scenario.c1 Scenario.alice Scenario.e3))
  = Ok [ChatService.mkChatWithUnread (Chat.mk "c3" "" 20) 0]
  ∧ Chat.ID (Chat.mk "c3" "" 20) ≠ Scenario.c1.
Proof.
  split; [vm_compute; reflexivity|].
  refine (deleted_chat_not_listed Scenario.c1 Scenario.alice Scenario.bob
            Scenario.e3
            (fst (ChatService.DeleteChat Scenario.c1 Scenario.alice Scenario.e3))
            [ChatService.mkChatWithUnread (Chat.mk "c3" "" 20) 0]
            _ _ (ChatService.mkChatWithUnread (Chat.mk "c3" "" 20) 0) _).
  - vm_compute. reflexivity.
  - vm_compute. reflexivity.
  - constructor.
Defined.

(** X21.  The chat list and the unread summary agree for a user id free
    of the glob characters [*], [?], [[] and the backslash: the count
    [GetChats] shows next to a chat is the one [GetUnreadCount] reports
    for that chat, zero when it reports none. *)
Theorem GetChats_count_agrees (userID : string) (e : Env.t)
        (chats : list ChatService.ChatWithUnread) (x : ChatService.ChatWithUnread) :
  Env.redis_client e = true →
  no_glob userID = true →
  ChatService.GetChats userID e = Ok chats → x ∈ chats →
  unread userID (Chat.ID (ChatService.Chat x)) e
  = Some (ChatService.UnreadCount x).
Proof.
  intros Hcl _ Hget Hx.
  destruct (GetChats_lists _ _ _ _ Hget Hx) as (id & Hid).
  rewrite (chat_with_unread_count _ _ _ _ Hcl Hid).
  apply chat_with_unread_found in Hid as [_ ->].
  by apply unread_read.
Qed.

Lemma GetChats_count_agrees_witness :
  unread Scenario.alice "c2" Scenario.e3 = Some 3.
Proof.
  refine (GetChats_count_agrees Scenario.alice Scenario.e3
            [ChatService.mkChatWithUnread (Chat.mk "c2" "" 30) 3;
             ChatService.mkChatWithUnread (Chat.mk "c3" "" 20) 0;
             ChatService.mkChatWithUnread (Chat.mk Scenario.c1 "" 10) 0]
            (ChatService.mkChatWithUnread (Chat.mk "c2" "" 30) 3) _ _ _ _).
  - reflexivity.
  - reflexivity.
  - vm_compute. reflexivity.
  - constructor.
Defined.

(** ** Reading a conversation through the controller *)

Section ControllerReading.

Import ChatController.

Implicit Types (st : state) (m : Message.t).

Lemma sendMessageToUser_page (userID chatID : string) (page : Z) m st :
  Env.redis (env (sendMessageToUser userID m st)) !! page_key chatID page
  = Env.redis (env st) !! page_key chatID page
  ∧ Env.now (env (sendMessageToUser userID m st)) = Env.now (env st).
Proof.
  unfold sendMessageToUser.
  destruct (clients (cc st) !! userID); cbn;
    (split; [|done]);
    rewrite Expire_other, Incr_other; try done;
    rewrite unread_key_spelling; apply page_key_not_unread.
Qed.

Lemma deliveries_page (sender chatID : string) (page : Z) m
      (l : list ChatUser.t) st :
  let st' := foldl (fun acc chatUser =>
                      if bool_decide (ChatUser.UserID chatUser ≠ sender)
                      then sendMessageToUser (ChatUser.UserID chatUser) m acc
                      else acc) st l in
  Env.redis (env st') !! page_key chatID page
  = Env.redis (env st) !! page_key chatID page
  ∧ Env.now (env st') = Env.now (env st).
Proof.
  revert st. induction l as [|x l IH]; intros st; cbn [foldl]; [done|].
  destruct (IH (if bool_decide (ChatUser.UserID x ≠ sender)
                then sendMessageToUser (ChatUser.UserID x) m st
                else st)) as [-> ->].
  case_bool_decide; [apply sendMessageToUser_page | done].
Qed.

(** [processMessage] touches no cached page, and not the clock. *)
Lemma processMessage_page (task : MessageTask) (chatID : string) (page : Z) st :
  Env.redis (env (fst (processMessage task st))) !! page_key chatID page
  = Env.redis (env st) !! page_key chatID page
  ∧ Env.now (env (fst (processMessage task st))) = Env.now (env st).
Proof.
  unfold processMessage.
  destruct (DB.create_message _ _ _) as [[m d]|]; [|done]. cbn [fst].
  set (st1 := set_env _ st). set (l := default [] _).
  destruct (deliveries_page (UserID task) chatID page m l st1) as [-> ->].
  done.
Qed.

(** An answer of [GetMessages] that carries a total was read from the
    store; the page is in the cache afterwards. *)
Lemma GetMessages_total (userID chatID : string) (page limit : Z) st st1
      (msgs : list Message.t) (total : Z) :
  GetMessages userID chatID page limit st
  = (st1, (200, BMessages msgs (Some total))) →
  Env.redis (env st1) !! page_key chatID page
  = Some (Redis.mk (Redis.VList msgs) (Some (Env.now (env st) + minute * 5)))
  ∧ Env.now (env st1) = Env.now (env st)
  ∧ total = DB.count_messages chatID (Env.db (env st))
  ∧ Env.redis (env st1) !! unread_key userID chatID = None
  ∧ Env.db (env st1)
    = default (Env.db (env st)) (DB.mark_read chatID userID (Env.db (env st)))
  ∧ DB.page_of_messages chatID limit (wrap64 (wrap64 (page - 1) * limit))
                        (Env.db (env st))
    = Some (rev msgs).
Proof.
  unfold GetMessages.
  destruct (DB.first_chat_user _ _ _); [|done].
  assert (Hmiss :
    match DB.page_of_messages chatID limit (wrap64 (wrap64 (page - 1) * limit))
                              (Env.db (env st)) with
    | None => (st, (500, BError "Failed to get messages"))
    | Some found =>
      (set_env
         (Env.set_redis
            (Redis.Set_ (Env.now (env st)) (page_key chatID page)
               (Redis.VList (rev found)) (minute * 5)
               (Redis.Del ("unread:" +:+ userID +:+ ":" +:+ chatID)
                          (Env.redis (env st))))
            (Env.set_db (default (Env.db (env st))
                                 (DB.mark_read chatID userID (Env.db (env st))))
                        (env st))) st,
       (200, BMessages (rev found) (Some (DB.count_messages chatID (Env.db (env st))))))
    end = (st1, (200, BMessages msgs (Some total))) →
    Env.redis (env st1) !! page_key chatID page
    = Some (Redis.mk (Redis.VList msgs) (Some (Env.now (env st) + minute * 5)))
    ∧ Env.now (env st1) = Env.now (env st)
    ∧ total = DB.count_messages chatID (Env.db (env st))
    ∧ Env.redis (env st1) !! unread_key userID chatID = None
    ∧ Env.db (env st1)
      = default (Env.db (env st)) (DB.mark_read chatID userID (Env.db (env st)))
    ∧ DB.page_of_messages chatID limit (wrap64 (wrap64 (page - 1) * limit))
                          (Env.db (env st))
      = Some (rev msgs)).
  { destruct (DB.page_of_messages _ _ _ _) as [found|]; [|done].
    intros [= <- <- <-]. cbn. unfold Redis.Set_, Redis.Del.
    split; [apply lookup_insert_eq|]. split; [done|]. split; [done|].
    rewrite lookup_insert_ne by (intros H; symmetry in H;
                                 by apply page_key_not_unread in H).
    rewrite unread_key_spelling. split; [apply lookup_delete_eq|].
    split; [done|]. by rewrite rev_involutive. }
  destruct (Redis.Get _ _ _) as [[n|s|s|ms t|ms]|]; try exact Hmiss.
  intros H. discriminate H.
Qed.

End ControllerReading.

(** X22.  The controller never drops a cached page.  Once its
    [GetMessages] has read a page from the store, a message that
    [processMessage] persists afterwards, in this chat or another, leaves
    the cached page in place: for five minutes every participant who asks
    for that page gets the list as it was before the message, without a
    total, and the call changes nothing. *)
Theorem controller_page_outlives_new_message
        (userID userID' chatID : string) (page limit limit' dt : Z)
        (st st1 : ChatController.state) (task : ChatController.MessageTask)
        (msgs : list Message.t) (total : Z) (cu : ChatUser.t) :
  ChatController.GetMessages userID chatID page limit st
  = (st1, (200, ChatController.BMessages msgs (Some total))) →
  let st2 := fst (ChatController.processMessage task st1) in
  DB.first_chat_user chatID userID' (Env.db (ChatController.env st2)) = Some cu →
  0 ≤ dt < 5 * minute →
  let st3 := ChatController.set_env (Env.tick dt (ChatController.env st2)) st2 in
  ChatController.GetMessages userID' chatID page limit' st3
  = (st3, (200, ChatController.BMessages msgs None)).
Proof.
  intros Hget st2 Hcu Hdt st3.
  destruct (GetMessages_total _ _ _ _ _ _ _ _ Hget) as (Hpage & Hnow & _).
  destruct (processMessage_page task chatID page st1) as [Hpage2 Hnow2].
  fold st2 in Hpage2, Hnow2. rewrite Hpage in Hpage2.
  unfold ChatController.GetMessages.
  assert (Hdb : Env.db (ChatController.env st3) = Env.db (ChatController.env st2))
    by done.
  rewrite Hdb, Hcu.
  change ("chat:" +:+ chatID +:+ ":messages:page:" +:+ pretty page)
    with (page_key chatID page).
  assert (Hg : Redis.Get (Env.now (ChatController.env st3)) (page_key chatID page)
                         (Env.redis (ChatController.env st3))
               = Some (Redis.VList msgs)).
  { unfold Redis.Get.
    rewrite (lookup_live _ _ _
               (Redis.mk (Redis.VList msgs)
                         (Some (Env.now (ChatController.env st) + minute * 5))));
      [done|exact Hpage2|].
    unfold Redis.live. cbn. apply Z.ltb_lt. rewrite Hnow2, Hnow. lia. }
  by rewrite Hg.
Qed.

Lemma controller_page_outlives_witness :
  length (DB.of_chat Scenario.c1 (Env.db (ChatController.env Scenario.a_minute_later)))
  = 1%nat
  ∧ ChatController.GetMessages Scenario.bob Scenario.c1 1 50 Scenario.a_minute_later
    = (Scenario.a_minute_later, (200, ChatController.BMessages [] None)).
Proof.
  split; [vm_compute; reflexivity|].
  refine (controller_page_outlives_new_message
            Scenario.bob Scenario.bob Scenario.c1 1 50 50 60 Scenario.st0
            Scenario.bob_has_page
            (ChatController.mkTask Scenario.c1 Scenario.alice "hello")
            [] 0 (ChatUser.mk "r2" Scenario.c1 Scenario.bob 0) _ _ _).
  - vm_compute. reflexivity.
  - vm_compute. reflexivity.
  - unfold minute. lia.
Defined.


